(** * generate_charts.py: a shallow embedding and its properties

    The program is one straight-line Python script
    ([paper/figures/generate_charts.py]).  It builds five pandas data
    frames from literals, six Altair charts over them, two layered figures,
    and saves each figure twice.

    The embedding follows the script statement by statement:
    - [Py]: Python scalars, dict literals, exceptions, and the
      state-and-exception monad in which the script runs;
    - [Pandas]: data frames as named columns living in a heap of objects, so
      that [strategy_data.copy()] and the in-place column assignments on
      [info_data] are visible as aliasing (or its absence);
    - [Altair]: charts as plain values, the layering operator [+] and the
      [save] method;
    - [VegaLite]: what the declared encodings mean for the rendered figure,
      i.e. the order of a discrete scale and the values a channel plots;
    - [Script]: the script itself.

    Numbers are the script's: integers are [Z], and every decimal literal is
    the IEEE-754 binary64 value Python reads it as (a primitive [float]). *)

From Stdlib Require Import ZArith QArith Qround String Ascii List Floats Sorted.
From stdpp Require Import base gmap strings pretty list.
Import ListNotations.

Set Warnings "-inexact-float,-register-all,-clear-no-such-hyp".
Set Default Proof Using "Type".
Open Scope string_scope.
Open Scope Z_scope.

(* ===================================================================== *)
(** * Python values and control *)
(* ===================================================================== *)

Module Py.

(** A scalar as it sits in a cell of a data frame or in a dict literal. *)
Inductive value :=
| VNone
| VInt (z : Z)
| VFloat (f : float)
| VStr (s : string).

(** A dict literal [{"k": v, ...}]; Python keeps the insertion order. *)
Definition dict := list (string * value).

Fixpoint dict_get (k : string) (d : dict) : option value :=
  match d with
  | [] => None
  | (k', v) :: d' => if String.eqb k k' then Some v else dict_get k d'
  end.

Definition keys (d : dict) : list string := d.*1.

(** Keyword arguments that only carry presentation (mark and axis styling,
    titles, global configuration).  They are kept as written. *)
Inductive arg :=
| AVal (v : value)
| AList (l : list arg)
| AObj (o : list (string * arg)).

Definition kwargs := list (string * arg).

(** An exception: its class and its arguments. *)
Record exn := Exn { exn_class : string; exn_args : list string }.

Definition KeyError (k : string) : exn := Exn "KeyError" [k].
Definition TypeError (msg : string) : exn := Exn "TypeError" [msg].
Definition ValueError (msg : string) : exn := Exn "ValueError" [msg].

Inductive outcome (A : Type) :=
| Returns (a : A)
| Raises (e : exn).
Arguments Returns {A} a.
Arguments Raises {A} e.

Definition and_then {A B} (o : outcome A) (k : A -> outcome B) : outcome B :=
  match o with
  | Returns a => k a
  | Raises e => Raises e
  end.

(** Conversion of an integer to binary64 (round to nearest even), as
    [float(n)] and as the JSON number the renderer receives. *)
Definition Z_to_float (z : Z) : float :=
  SF2Prim (binary_normalize 53 1024 z 0 false).

(** The number a cell denotes, if it is one. *)
Definition to_number (v : value) : option float :=
  match v with
  | VInt z => Some (Z_to_float z)
  | VFloat f => Some f
  | VNone | VStr _ => None
  end.

(** [a > b] on scalars.  Integers compare exactly, an integer and a float
    compare as floats, anything else is a [TypeError]. *)
Definition py_gt (a b : value) : outcome bool :=
  match a, b with
  | VInt x, VInt y => Returns (y <? x)
  | _, _ =>
      match to_number a, to_number b with
      | Some x, Some y => Returns (PrimFloat.ltb y x)
      | _, _ => Raises (TypeError "'>' not supported between these operands")
      end
  end.

(** Equality of cells as the renderer keys them (numbers are one type, and
    NaN is one key). *)
Definition value_eqb (a b : value) : bool :=
  match a, b with
  | VNone, VNone => true
  | VStr s, VStr t => String.eqb s t
  | VInt x, VInt y => x =? y
  | _, _ =>
      match to_number a, to_number b with
      | Some x, Some y =>
          PrimFloat.eqb x y || (PrimFloat.is_nan x && PrimFloat.is_nan y)
      | _, _ => false
      end
  end.

Section Format.
(** [repr] of a float (shortest round-tripping decimal) is left to the
    runtime: the script never formats one. *)
Variable float_repr : float -> string.

(** A replacement field [{v}] of an f-string with no format spec. *)
Definition py_format (v : value) : string :=
  match v with
  | VNone => "None"
  | VInt z => pretty z
  | VFloat f => float_repr f
  | VStr s => s
  end.
End Format.

End Py.

(* ===================================================================== *)
(** * The interpreter state and its monad *)
(* ===================================================================== *)

Module Run.
Import Py.

(** A pandas data frame: its columns in order, each with one cell per row. *)
Definition DataFrame := list (string * list value).

(** A reference to a data frame object. *)
Definition ref := nat.

(** Export formats [save] knows, inferred from the file extension. *)
Inductive file_format := JSON | HTML | PNG | SVG | PDF | VEGA.

Definition bytes := list Byte.byte.

(** What the run has done to the outside world, in order. *)
Inductive event :=
| EvPrint (line : string)
| EvSave (path : string) (fmt : file_format) (scale_factor : value).

Record world := World {
  heap : list DataFrame;
  files : gmap string bytes;
  trace : list event
}.

Definition M (A : Type) : Type := world -> outcome A * world.

Definition ret {A} (a : A) : M A := fun w => (Returns a, w).
Definition raise {A} (e : exn) : M A := fun w => (Raises e, w).
Definition bind {A B} (m : M A) (k : A -> M B) : M B :=
  fun w => match m w with
           | (Returns a, w') => k a w'
           | (Raises e, w') => (Raises e, w')
           end.
Definition lift {A} (o : outcome A) : M A := fun w => (o, w).

End Run.

Declare Scope py_scope.
Delimit Scope py_scope with py.
Notation "x <- m ;; k" := (Run.bind m (fun x => k))
  (at level 100, m at next level, right associativity) : py_scope.
Notation "m ;;; k" := (Run.bind m (fun _ => k))
  (at level 100, right associativity) : py_scope.
Notation "'let!' x := o 'in' k" := (Py.and_then o (fun x => k))
  (at level 100, x name, o at next level, right associativity) : py_scope.

(* ===================================================================== *)
(** * pandas *)
(* ===================================================================== *)

Module Pandas.
Import Py Run.
Local Open Scope py_scope.

(** The missing-value marker pandas fills absent cells with. *)
Definition NaN : value := VFloat PrimFloat.nan.

(** ** Column types *)

Definition is_int (v : value) : bool :=
  match v with VInt _ => true | _ => false end.

Definition is_number (v : value) : bool :=
  match v with VInt _ | VFloat _ => true | _ => false end.

Definition is_number_or_None (v : value) : bool :=
  match v with VInt _ | VFloat _ | VNone => true | VStr _ => false end.

Definition as_float (v : value) : value :=
  match v with
  | VInt z => VFloat (Z_to_float z)
  | VNone => NaN
  | _ => v
  end.

(** The cells of a column as pandas stores them: a column of integers stays
    as it is; a column of numbers in which a float or a missing value occurs
    is a float column (integers become floats, [None] becomes [NaN]); any
    other column holds its objects as given. *)
Definition coerce_column (cells : list value) : list value :=
  if forallb is_int cells then cells
  else if forallb is_number_or_None cells && existsb is_number cells
       then map as_float cells
       else cells.

Definition add_key (acc : list string) (k : string) : list string :=
  if existsb (String.eqb k) acc then acc else (acc ++ [k])%list.

(** Column labels of [pd.DataFrame(list_of_dicts)]: every key, in order of
    first appearance. *)
Definition union_keys (rs : list dict) : list string :=
  fold_left (fun acc r => fold_left add_key (keys r) acc) rs [].

(** [pd.DataFrame([{...}, ...])].  A record lacking a key gets [NaN] in that
    column; nothing is raised.  (A frame is its columns: records without any
    key, which pandas would keep as rows without cells, leave no trace.) *)
Definition from_records (rs : list dict) : DataFrame :=
  map (fun c => (c, coerce_column (map (fun r => default NaN (dict_get c r)) rs)))
      (union_keys rs).

(** [pd.DataFrame({'c': [...], ...})]: the columns must agree in length. *)
Definition from_columns (cols : list (string * list value)) : outcome DataFrame :=
  match cols with
  | [] => Returns []
  | (_, c0) :: _ =>
      if forallb (fun c => Nat.eqb (length c.2) (length c0)) cols
      then Returns (map (fun c => (c.1, coerce_column c.2)) cols)
      else Raises (ValueError "All arrays must be of the same length")
  end.

Definition nrows (df : DataFrame) : nat :=
  match df with
  | [] => 0%nat
  | (_, c) :: _ => length c
  end.

Definition columns (df : DataFrame) : list string := df.*1.

Fixpoint column (df : DataFrame) (name : string) : option (list value) :=
  match df with
  | [] => None
  | (c, cells) :: df' => if String.eqb name c then Some cells else column df' name
  end.

(** Row [i] as a labelled series. *)
Definition row (df : DataFrame) (i : nat) : dict :=
  omap (fun '(c, cells) => pair c <$> cells !! i) df.

Definition rows (df : DataFrame) : list dict :=
  map (row df) (seq 0 (nrows df)).

(** The rows as [apply(axis=1)] hands them over: when every cell of the
    frame is a number and some column is a float column, the row is a float
    series (its integers become floats); otherwise the cells are as
    stored. *)
Definition rows_for_apply (df : DataFrame) : list dict :=
  if forallb (fun col => forallb is_number col.2) df
     && existsb (fun col => negb (forallb is_int col.2)) df
  then map (map (fun kv => (kv.1, as_float kv.2))) (rows df)
  else rows df.

(** [r[k]] on a row. *)
Definition getitem (r : dict) (k : string) : outcome value :=
  match dict_get k r with
  | Some v => Returns v
  | None => Raises (KeyError k)
  end.

Fixpoint map_outcome {A B} (f : A -> outcome B) (l : list A) : outcome (list B) :=
  match l with
  | [] => Returns []
  | a :: l' =>
      match f a with
      | Raises e => Raises e
      | Returns b =>
          match map_outcome f l' with
          | Raises e => Raises e
          | Returns bs => Returns (b :: bs)
          end
      end
  end.

(** [df[name] = cells] on the frame itself: an existing column is replaced
    in place, a new one is appended. *)
Definition set_column (name : string) (cells : list value) (df : DataFrame) : DataFrame :=
  if existsb (String.eqb name) (columns df)
  then map (fun '(c, old) => if String.eqb c name then (c, cells) else (c, old)) df
  else (df ++ [(name, cells)])%list.

(** ** Objects *)

Definition alloc (df : DataFrame) : M ref :=
  fun w => (Returns (length (heap w)),
            World (heap w ++ [df])%list (files w) (trace w)).

(** Reading the object behind a reference.  A Python name always refers to
    a live object; a reference outside the heap exists only in the model,
    which makes its use an error. *)
Definition load (r : ref) : M DataFrame :=
  fun w => match heap w !! r with
           | Some df => (Returns df, w)
           | None => (Raises (Exn "SystemError" ["dangling reference"]), w)
           end.

Definition store (r : ref) (df : DataFrame) : M unit :=
  fun w => (Returns tt, World (<[r := df]> (heap w)) (files w) (trace w)).

Definition DataFrame_of_records (rs : list dict) : M ref :=
  alloc (from_records rs).

Definition DataFrame_of_columns (cols : list (string * list value)) : M ref :=
  df <- lift (from_columns cols);; alloc df.

(** [df.copy()]: a new object with the same contents. *)
Definition copy (r : ref) : M ref :=
  df <- load r;; alloc df.

(** [df.apply(f, axis=1)]: [f] on every row, in row order. *)
Definition apply_rows (r : ref) (f : dict -> outcome value) : M (list value) :=
  df <- load r;; lift (map_outcome f (rows_for_apply df)).

(** [df[name] = cells] with a list: the cells must be one per row.  A frame
    that has no rows yet takes its rows from the list, and the columns it
    already has are filled with [NaN]. *)
Definition setitem (r : ref) (name : string) (cells : list value) : M unit :=
  df <- load r;;
  if Nat.eqb (length cells) (nrows df)
  then store r (set_column name (coerce_column cells) df)
  else if Nat.eqb (nrows df) 0
  then store r (set_column name (coerce_column cells)
                  (map (fun c => (c.1, replicate (length cells) NaN)) df))
  else raise (ValueError ("Length of values (" ++ pretty (length cells)
                          ++ ") does not match length of index ("
                          ++ pretty (nrows df) ++ ")")).

(** [df[name] = scalar]: the scalar in every row (a column of one type). *)
Definition setitem_scalar (r : ref) (name : string) (v : value) : M unit :=
  df <- load r;;
  store r (set_column name (replicate (nrows df) v) df).

End Pandas.

(* ===================================================================== *)
(** * Altair *)
(* ===================================================================== *)

Module Altair.
Import Py Run.
Local Open Scope py_scope.

Inductive vl_type := quantitative | ordinal | nominal | temporal.

Definition type_code (s : string) : option vl_type :=
  if String.eqb s "Q" then Some quantitative
  else if String.eqb s "O" then Some ordinal
  else if String.eqb s "N" then Some nominal
  else if String.eqb s "T" then Some temporal
  else None.

(** The shorthand ['field:T'] of a channel.  (Only the one-letter type codes
    the script uses are read; a string without one names the field.) *)
Definition parse_shorthand (s : string) : string * option vl_type :=
  let n := String.length s in
  match type_code (substring (n - 1) 1 s) with
  | Some t =>
      if String.eqb (substring (n - 2) 1 s) ":"
      then (substring 0 (n - 2) s, Some t)
      else (s, None)
  | None => (s, None)
  end.

Inductive sort_order := ascending | descending.

Inductive aggregate := agg_min | agg_max | agg_sum | agg_mean.

(** The [sort=] argument of a discrete channel: a list of values in the
    wanted order, or [alt.EncodingSortField(field=, op=, order=)]. *)
Inductive Sort :=
| SortArray (values : list value)
| EncodingSortField (field : string) (op : option aggregate) (order : sort_order).

(** [alt.Scale(domain=..., range=...)]. *)
Record Scale := { domain : option (list value); range : option (list string) }.

(** Keyword arguments of [alt.X], [alt.Y], [alt.Color], [alt.Text]. *)
Inductive channel_kw :=
| title (s : string)
| scale (s : Scale)
| sort (s : Sort)
| axis (k : kwargs)
| format (s : string).

Record Channel := { shorthand : string; channel_kws : list channel_kw }.

Definition alt_X (sh : string) (kws : list channel_kw) : Channel := Build_Channel sh kws.
Definition alt_Y (sh : string) (kws : list channel_kw) : Channel := Build_Channel sh kws.
Definition alt_Color (sh : string) (kws : list channel_kw) : Channel := Build_Channel sh kws.
Definition alt_Text (sh : string) (kws : list channel_kw) : Channel := Build_Channel sh kws.
(** A bare string given for a channel, as in [encode(x='x:Q')]. *)
Definition shorthand_only (sh : string) : Channel := Build_Channel sh [].

Definition channel_scale (c : Channel) : option Scale :=
  head (omap (fun k => match k with scale s => Some s | _ => None end) (channel_kws c)).

Definition channel_sort (c : Channel) : option Sort :=
  head (omap (fun k => match k with sort s => Some s | _ => None end) (channel_kws c)).

Definition field_of (c : Channel) : string := (parse_shorthand (shorthand c)).1.
Definition type_of (c : Channel) : option vl_type := (parse_shorthand (shorthand c)).2.

Inductive mark_type := line | bar | rule | text.

(** Presentation arguments. *)
Definition int (z : Z) : arg := AVal (VInt z).
Definition num (f : float) : arg := AVal (VFloat f).
Definition str (s : string) : arg := AVal (VStr s).
Definition none : arg := AVal VNone.

Fixpoint kw_set (k : string) (a : arg) (kw : kwargs) : kwargs :=
  match kw with
  | [] => [(k, a)]
  | (k', a') :: r =>
      if String.eqb k k' then (k, a) :: r else (k', a') :: kw_set k a r
  end.

Definition kw_update (kw new : kwargs) : kwargs :=
  fold_left (fun acc p => kw_set p.1 p.2 acc) new kw.

(** [alt.Chart]: a single-mark chart over one data frame.  The frame is held
    by reference; it is read when the chart is rendered. *)
Record Chart := {
  data : ref;
  mark : option (mark_type * kwargs);
  encoding : list (string * Channel);
  chart_props : kwargs
}.

Definition alt_Chart (d : ref) : Chart :=
  {| data := d; mark := None; encoding := []; chart_props := [] |}.

Definition with_mark (m : mark_type) (kw : kwargs) (c : Chart) : Chart :=
  {| data := data c; mark := Some (m, kw);
     encoding := encoding c; chart_props := chart_props c |}.

Definition mark_line := with_mark line.
Definition mark_bar := with_mark bar.
Definition mark_rule := with_mark rule.
Definition mark_text := with_mark text.

Definition encode (enc : list (string * Channel)) (c : Chart) : Chart :=
  {| data := data c; mark := mark c;
     encoding := (encoding c ++ enc)%list; chart_props := chart_props c |}.

(** [alt.LayerChart]: charts drawn over each other, first in the list first. *)
Record LayerChart := {
  layer : list Chart;
  layer_props : kwargs;
  config : kwargs
}.

(** [a + b] on two charts is [alt.layer(a, b)]; [l + c] on a layered chart
    appends [c] to its layers.  (Altair may move properties that the layers
    share, such as the size, to the top level; a layer is recorded here as
    the chart that was supplied.) *)
Definition chart_add (a b : Chart) : LayerChart :=
  {| layer := [a; b]; layer_props := []; config := [] |}.

Definition layer_add (l : LayerChart) (c : Chart) : LayerChart :=
  {| layer := (layer l ++ [c])%list; layer_props := layer_props l; config := config l |}.

(** [.properties(...)] is a method of every top-level chart class. *)
Class TopLevel (T : Type) := properties : kwargs -> T -> T.

#[global] Instance Chart_TopLevel : TopLevel Chart := fun kw c =>
  {| data := data c; mark := mark c; encoding := encoding c;
     chart_props := kw_update (chart_props c) kw |}.

#[global] Instance LayerChart_TopLevel : TopLevel LayerChart := fun kw l =>
  {| layer := layer l; layer_props := kw_update (layer_props l) kw; config := config l |}.

Definition with_config (kw : kwargs) (l : LayerChart) : LayerChart :=
  {| layer := layer l; layer_props := layer_props l; config := kw_update (config l) kw |}.

(** [configure] installs a new configuration made of its keywords; the
    [configure_*] methods set one entry of the configuration there is. *)
Definition configure (kw : kwargs) (l : LayerChart) : LayerChart :=
  {| layer := layer l; layer_props := layer_props l; config := kw_update [] kw |}.
Definition configure_axis (kw : kwargs) : LayerChart -> LayerChart :=
  with_config [("axis", AObj kw)].
Definition configure_legend (kw : kwargs) : LayerChart -> LayerChart :=
  with_config [("legend", AObj kw)].
Definition configure_view (kw : kwargs) : LayerChart -> LayerChart :=
  with_config [("view", AObj kw)].

(** ** Saving *)

(** The components of a path as [pathlib] reads it: the pieces between
    slashes, without the empty ones and the single dots. *)
Fixpoint split_on (sep : ascii) (s : string) : list string :=
  match s with
  | EmptyString => [EmptyString]
  | String c s' =>
      if Ascii.eqb c sep then EmptyString :: split_on sep s'
      else match split_on sep s' with
           | p :: ps => String c p :: ps
           | [] => [String c EmptyString]
           end
  end.

Definition parts (fp : string) : list string :=
  List.filter (fun p => negb (String.eqb p "" || String.eqb p "."))
              (split_on "/"%char fp).

(** The last component of a path ([Path(fp).name]). *)
Definition basename (fp : string) : string := default EmptyString (last (parts fp)).

(** The text after the last dot of a name. *)
Fixpoint after_last_dot (s : string) : option string :=
  match s with
  | EmptyString => None
  | String c s' =>
      match after_last_dot s' with
      | Some e => Some e
      | None => if Ascii.eqb c "."%char then Some s' else None
      end
  end.

(** [Path(fp).suffix.lstrip(".")]: what follows the last dot of the last
    component, when that dot is neither its first nor its last character. *)
Definition suffix (fp : string) : string :=
  let name := basename fp in
  match after_last_dot name with
  | Some e =>
      if Nat.ltb (String.length e + 1) (String.length name) then e else EmptyString
  | None => EmptyString
  end.

(** [save] called without [format=] takes the format from the suffix of the
    path. *)
Definition infer_format (fp : string) : outcome file_format :=
  let e := suffix fp in
  if String.eqb e "json" then Returns JSON
  else if String.eqb e "html" then Returns HTML
  else if String.eqb e "png" then Returns PNG
  else if String.eqb e "svg" then Returns SVG
  else if String.eqb e "pdf" then Returns PDF
  else if String.eqb e "vega" then Returns VEGA
  else Raises (ValueError ("Unsupported format: '" ++ e ++ "'")).

Definition is_raster (f : file_format) : bool :=
  match f with PNG => true | _ => false end.


(** [scale_factor] when [save] is called without it. *)
Definition default_scale_factor : value := VInt 1.

Definition print (line : string) : M unit :=
  fun w => (Returns tt, World (heap w) (files w) (trace w ++ [EvPrint line])%list).

Section Save.
(** The rendering backend together with the file system's willingness to
    take the file: given the state of the world, the target, the format,
    the scale factor and the figure, either the exception the call dies
    with or the bytes that end up in the file. *)
Variable export : world -> string -> file_format -> value -> LayerChart -> exn + bytes.

(** [fig.save(fp, scale_factor=...)]: render, then open [fp] for writing
    (truncating what was there) and write. *)
Definition save (fig : LayerChart) (fp : string) (scale_factor : value) : M unit :=
  fmt <- lift (infer_format fp);;
  fun w =>
    let tr := (trace w ++ [EvSave fp fmt scale_factor])%list in
    match export w fp fmt scale_factor fig with
    | inl e => (Raises e, World (heap w) (files w) tr)
    | inr b => (Returns tt, World (heap w) (<[fp := b]> (files w)) tr)
    end.
End Save.

End Altair.

Notation "c ~> f" := (f c) (at level 45, left associativity, only parsing).

(* ===================================================================== *)
(** * What the encodings mean when the figure is rendered (Vega-Lite) *)
(* ===================================================================== *)

Module VegaLite.
Import Py Run Altair.

Fixpoint assoc {A} (k : string) (l : list (string * A)) : option A :=
  match l with
  | [] => None
  | (k', a) :: l' => if String.eqb k k' then Some a else assoc k l'
  end.

Definition channel_of (c : Chart) (ch : string) : option Channel :=
  assoc ch (encoding c).

(** Every field a chart's encoding refers to. *)
Definition encoded_fields (c : Chart) : list string :=
  map (fun e => field_of e.2) (encoding c).

(** The cells a layer puts on a channel: the bound field's column of the
    bound data frame, as the heap holds it at rendering time. *)
Definition channel_values (h : list DataFrame) (c : Chart) (ch : string)
  : option (list value) :=
  match channel_of c ch, h !! data c with
  | Some e, Some df => Pandas.column df (field_of e)
  | _, _ => None
  end.

(** ** Discrete scales *)

(** Distinct values, each at its first occurrence. *)
Fixpoint distinct (vs : list value) : list value :=
  match vs with
  | [] => []
  | v :: r => v :: List.filter (fun u => negb (value_eqb u v)) (distinct r)
  end.

(** A stable sort: [x], which came first, stays before every element that
    is not strictly before it. *)
Fixpoint insert_on {A K} (before : K -> K -> bool) (key : A -> K) (x : A) (l : list A)
  : list A :=
  match l with
  | [] => [x]
  | y :: l' =>
      if before (key y) (key x) then y :: insert_on before key x l'
      else x :: y :: l'
  end.

Definition sort_on {A K} (before : K -> K -> bool) (key : A -> K) (l : list A) : list A :=
  fold_right (insert_on before key) [] l.

Definition fmin (a b : float) : float := if PrimFloat.ltb b a then b else a.
Definition fmax (a b : float) : float := if PrimFloat.ltb a b then b else a.

Definition aggregate_with (op : aggregate) (xs : list float) : option float :=
  match xs with
  | [] => None
  | x :: r =>
      Some match op with
           | agg_min => fold_left fmin r x
           | agg_max => fold_left fmax r x
           | agg_sum => fold_left PrimFloat.add r x
           | agg_mean =>
               PrimFloat.div (fold_left PrimFloat.add r x)
                             (Z_to_float (Z.of_nat (length xs)))
           end
  end.

(** The sort key of category [v]: the aggregate of the sort field over the
    rows whose category is [v]. *)
Definition sort_key (op : aggregate) (rows : list (value * value)) (v : value)
  : option float :=
  aggregate_with op
    (omap (fun p => to_number p.2) (List.filter (fun p => value_eqb p.1 v) rows)).

Definition key_before (o : sort_order) (a b : option float) : bool :=
  match a, b with
  | Some x, Some y =>
      match o with
      | ascending => PrimFloat.ltb x y
      | descending => PrimFloat.ltb y x
      end
  | _, _ => false
  end.

(** Position in an explicit ordering; values it does not list come after
    all listed ones. *)
Fixpoint index_in (order : list value) (v : value) : nat :=
  match order with
  | [] => 0%nat
  | u :: r => if value_eqb u v then 0%nat else S (index_in r v)
  end.

(** The natural order used when no sort is given. *)
Definition value_ltb (a b : value) : bool :=
  match a, b with
  | VStr s, VStr t => String.ltb s t
  | _, _ =>
      match to_number a, to_number b with
      | Some x, Some y => PrimFloat.ltb x y
      | _, _ => false
      end
  end.

(** An [EncodingSortField] without [op] aggregates with [min] (the plots
    here are not stacked). *)
Definition default_sort_op : aggregate := agg_min.

(** The domain of a discrete scale, in the order in which it is laid out,
    from the categories [cats] and, row by row, the cells [look f] of a
    field [f] of the same rows. *)
Definition ordered_domain (s : option Sort) (cats : list value)
    (look : string -> option (list value)) : option (list value) :=
  match s with
  | None => Some (sort_on value_ltb id (distinct cats))
  | Some (SortArray order) => Some (sort_on Nat.ltb (index_in order) (distinct cats))
  | Some (EncodingSortField f op order) =>
      match look f with
      | None => None
      | Some ks =>
          Some (sort_on (key_before order)
                  (sort_key (default default_sort_op op) (zip cats ks))
                  (distinct cats))
      end
  end.


(** ** Layered figures: one scale per channel, shared by the layers *)

Fixpoint map_option {A B} (f : A -> option B) (l : list A) : option (list B) :=
  match l with
  | [] => Some []
  | a :: l' =>
      match f a, map_option f l' with
      | Some b, Some bs => Some (b :: bs)
      | _, _ => None
      end
  end.

Definition layers_with (fig : LayerChart) (ch : string) : list Chart :=
  List.filter (fun c => bool_decide (is_Some (channel_of c ch))) (layer fig).

(** All cells the figure puts on channel [ch], layer after layer. *)
Definition plotted_values (h : list DataFrame) (fig : LayerChart) (ch : string)
  : option (list value) :=
  @List.concat _ <$> map_option (fun c => channel_values h c ch) (layers_with fig ch).

(** The scale domain declared for channel [ch], by whichever layer
    declares one. *)
Definition declared_domain (fig : LayerChart) (ch : string) : option (list value) :=
  head (omap (fun c =>
                match channel_of c ch with
                | Some e =>
                    match channel_scale e with
                    | Some s => domain s
                    | None => None
                    end
                | None => None
                end) (layer fig)).

Definition declared_sort (fig : LayerChart) (ch : string) : option Sort :=
  head (omap (fun c =>
                match channel_of c ch with
                | Some e => channel_sort e
                | None => None
                end) (layer fig)).

(** Rows of (category on [ch], cell of field [f]) of one layer. *)
Definition layer_pairs (h : list DataFrame) (ch f : string) (c : Chart)
  : option (list (value * value)) :=
  match channel_values h c ch, h !! data c with
  | Some cats, Some df =>
      match Pandas.column df f with
      | Some ks => Some (zip cats ks)
      | None => None
      end
  | _, _ => None
  end.

(** The shared discrete domain of channel [ch] of a layered figure: the
    union of the layers' categories under the declared sort. *)
Definition shared_domain (h : list DataFrame) (fig : LayerChart) (ch : string)
  : option (list value) :=
  match plotted_values h fig ch with
  | None => None
  | Some cats =>
      ordered_domain (declared_sort fig ch) cats
        (fun f => (fun ps => (@List.concat _ ps).*2)
                    <$> map_option (layer_pairs h ch f) (layers_with fig ch))
  end.

(** The legend of a colour channel lists its scale's domain, in order. *)
Definition legend_entries (h : list DataFrame) (fig : LayerChart) : option (list value) :=
  shared_domain h fig "color".

(** ** Continuous scales *)

(** [v] lies in the declared domain [[lo, hi]]. *)
Definition in_domain (dom : list value) (v : value) : bool :=
  match dom with
  | [lo; hi] =>
      match to_number lo, to_number v, to_number hi with
      | Some l, Some x, Some u => PrimFloat.leb l x && PrimFloat.leb x u
      | _, _, _ => false
      end
  | _ => false
  end.

End VegaLite.

(* ===================================================================== *)
(** * The script *)
(* ===================================================================== *)

Module Script.
Import Py Run Pandas Altair.
Local Open Scope py_scope.

(** ** The literals *)

Definition qn (quality : Z) (noise : string) (probability : float) (order : Z) : dict :=
  [("quality", VInt quality); ("noise", VStr noise);
   ("probability", VFloat probability); ("order", VInt order)].

Definition quality_noise_records : list dict := [
  qn 50 "Low (SD=15)" 0.2 1;
  qn 60 "Low (SD=15)" 2.8 1;
  qn 70 "Low (SD=15)" 26.8 1;
  qn 80 "Low (SD=15)" 66.7 1;
  qn 90 "Low (SD=15)" 93.9 1;
  qn 50 "Medium (SD=30)" 3.4 2;
  qn 60 "Medium (SD=30)" 11.0 2;
  qn 70 "Medium (SD=30)" 24.3 2;
  qn 80 "Medium (SD=30)" 46.1 2;
  qn 90 "Medium (SD=30)" 67.7 2;
  qn 50 "High (SD=45)" 7.0 3;
  qn 60 "High (SD=45)" 13.6 3;
  qn 70 "High (SD=45)" 23.8 3;
  qn 80 "High (SD=45)" 37.6 3;
  qn 90 "High (SD=45)" 51.6 3
].

Definition st (strategy : string) (expected : float) (papers quality : Z) : dict :=
  [("strategy", VStr strategy); ("expected", VFloat expected);
   ("papers", VInt papers); ("quality", VInt quality)].

Definition strategy_records : list dict := [
  st "Two Very Good" 0.82 2 78;
  st "Three Decent" 0.60 3 68;
  st "Two Good" 0.57 2 72;
  st "One Excellent" 0.56 1 85
].

(** The ordering given to the colour channel. *)
Definition noise_order : list value :=
  [VStr "Low (SD=15)"; VStr "Medium (SD=30)"; VStr "High (SD=45)"].

Definition by_expected_descending : Sort :=
  EncodingSortField "expected" None descending.

(** ** The variables the script has defined once both figures are built *)

Record figure1_vars := {
  quality_noise_data : ref;
  threshold_line : Chart;
  threshold_label : Chart;
  quality_noise_chart : Chart;
  fig1 : LayerChart
}.

Record figure2_vars := {
  strategy_data : ref;
  bars : Chart;
  text_labels : Chart;
  info_data : ref;
  info_labels : Chart;
  fig2 : LayerChart
}.

(** ** Lines 10-74: the quality-by-noise figure, as a function of its data
    literal and of the ordering literal of its colour channel *)

Definition figure1 (records : list dict) (order : list value) : M figure1_vars :=
  quality_noise_data <- DataFrame_of_records records;;
  threshold_x <- DataFrame_of_columns [("x", [VInt 70])];;
  let threshold_line :=
    alt_Chart threshold_x
      ~> mark_rule [("strokeDash", AList [int 6; int 4]);
                    ("color", str "#888888");
                    ("strokeWidth", num 1.5)]
      ~> encode [("x", shorthand_only "x:Q")] in
  threshold_xy <- DataFrame_of_columns
      [("x", [VInt 70]); ("y", [VInt 92]); ("text", [VStr "Threshold"])];;
  let threshold_label :=
    alt_Chart threshold_xy
      ~> mark_text [("align", str "left"); ("dx", int 5);
                    ("fontSize", int 11); ("color", str "#666666")]
      ~> encode [("x", shorthand_only "x:Q"); ("y", shorthand_only "y:Q");
                 ("text", shorthand_only "text:N")] in
  let quality_noise_chart :=
    alt_Chart quality_noise_data
      ~> mark_line [("point", AObj [("size", int 80)]); ("strokeWidth", num 2.5)]
      ~> encode [
           ("x", alt_X "quality:Q"
                   [title "True Paper Quality";
                    scale {| domain := Some [VInt 45; VInt 95]; range := None |}]);
           ("y", alt_Y "probability:Q"
                   [title "Acceptance Probability (%)";
                    scale {| domain := Some [VInt 0; VInt 100]; range := None |}]);
           ("color", alt_Color "noise:N"
                   [title "Reviewer Noise";
                    sort (SortArray order);
                    scale {| domain := None;
                             range := Some ["#2563eb"; "#9333ea"; "#dc2626"] |}])]
      ~> properties [
           ("width", int 450);
           ("height", int 300);
           ("title", AObj [
              ("text", str "How Noise Redistributes Acceptance");
              ("subtitle", str "Good papers lose acceptance probability, bad papers gain")])] in
  let fig1 :=
    layer_add (chart_add quality_noise_chart threshold_line) threshold_label
      ~> configure [("font", str "Helvetica")]
      ~> configure_axis [("labelFontSize", int 11); ("titleFontSize", int 12)]
      ~> configure_legend [("labelFontSize", int 11); ("titleFontSize", int 12)] in
  ret {| quality_noise_data := quality_noise_data;
         threshold_line := threshold_line;
         threshold_label := threshold_label;
         quality_noise_chart := quality_noise_chart;
         fig1 := fig1 |}.

Section Runtime.
Variable float_repr : float -> string.
Variable export : world -> string -> file_format -> value -> LayerChart -> exn + bytes.

(** Line 110: the function applied to every row of [info_data]. *)
Definition info_lambda (r : dict) : outcome value :=
  let! papers := getitem r "papers" in
  let! papers' := getitem r "papers" in
  let! plural := py_gt papers' (VInt 1) in
  let! quality := getitem r "quality" in
  Returns (VStr (py_format float_repr papers ++ " paper"
                 ++ (if plural : bool then "s" else "")
                 ++ ", Q=" ++ py_format float_repr quality)).

(** ** Lines 76-136: the strategy figure *)

Definition figure2 : M figure2_vars :=
  strategy_data <- DataFrame_of_records strategy_records;;
  let bars :=
    alt_Chart strategy_data
      ~> mark_bar [("color", str "#2563eb");
                   ("cornerRadiusTopLeft", int 3);
                   ("cornerRadiusTopRight", int 3)]
      ~> encode [
           ("x", alt_X "strategy:N"
                   [title "Research Strategy (Fixed Total Effort)";
                    sort by_expected_descending;
                    axis [("labelAngle", int 0)]]);
           ("y", alt_Y "expected:Q"
                   [title "Expected Publications";
                    scale {| domain := Some [VInt 0; VInt 1]; range := None |}])] in
  let text_labels :=
    alt_Chart strategy_data
      ~> mark_text [("dy", int (-8)); ("fontSize", int 12); ("fontWeight", str "bold")]
      ~> encode [
           ("x", alt_X "strategy:N" [sort by_expected_descending]);
           ("y", alt_Y "expected:Q" []);
           ("text", alt_Text "expected:Q" [format ".2f"])] in
  info_data <- copy strategy_data;;
  info <- apply_rows info_data info_lambda;;
  setitem info_data "info" info;;;
  setitem_scalar info_data "y_pos" (VFloat 0.08);;;
  let info_labels :=
    alt_Chart info_data
      ~> mark_text [("fontSize", int 10); ("color", str "white")]
      ~> encode [
           ("x", alt_X "strategy:N" [sort by_expected_descending]);
           ("y", alt_Y "y_pos:Q" []);
           ("text", shorthand_only "info:N")] in
  let fig2 :=
    layer_add (chart_add bars text_labels) info_labels
      ~> properties [
           ("width", int 400);
           ("height", int 300);
           ("title", AObj [
              ("text", str "Perverse Incentives: Quantity Over Quality");
              ("subtitle",
               str "Lower quality strategy yields 46% more expected publications")])]
      ~> configure [("font", str "Helvetica")]
      ~> configure_axis [("labelFontSize", int 11); ("titleFontSize", int 12)]
      ~> configure_view [("stroke", none)] in
  ret {| strategy_data := strategy_data;
         bars := bars;
         text_labels := text_labels;
         info_data := info_data;
         info_labels := info_labels;
         fig2 := fig2 |}.

(** Lines 10-136. *)
Definition build : M (figure1_vars * figure2_vars) :=
  f1 <- figure1 quality_noise_records noise_order;;
  f2 <- figure2;;
  ret (f1, f2).

(** ** Lines 138-147: saving *)

Definition save_charts (f1 : figure1_vars) (f2 : figure2_vars) : M unit :=
  print "Saving Quality x Noise chart...";;;
  save export (fig1 f1) "paper/figures/quality-x-noise.png" (VFloat 2.0);;;
  save export (fig1 f1) "paper/figures/quality-x-noise.pdf" default_scale_factor;;;
  print "Saving Strategy Comparison chart...";;;
  save export (fig2 f2) "paper/figures/strategy-comparison.png" (VFloat 2.0);;;
  save export (fig2 f2) "paper/figures/strategy-comparison.pdf" default_scale_factor;;;
  print "Done! Charts saved to paper/figures/".

(** The whole script. *)
Definition main : M unit :=
  fs <- build;;
  save_charts fs.1 fs.2.

End Runtime.

(** A fresh interpreter: no objects yet, nothing printed, and whatever
    files the disk holds. *)
Definition start (disk : gmap string bytes) : world := World [] disk [].

End Script.

(* ===================================================================== *)
(** * Notions used to state the properties *)
(* ===================================================================== *)

Module Reading.
Import Py Run Pandas Altair VegaLite.

(** ** Columns that are stored as given *)

Definition is_float (v : value) : bool :=
  match v with VFloat _ => true | _ => false end.

(** A column whose cells pandas keeps as they are: integers only, floats
    only, or a column that is not one of numbers (it holds a string, or
    nothing but [None]). *)
Definition stored_as_given (cells : list value) : bool :=
  forallb is_int cells || forallb is_float cells
  || negb (forallb is_number_or_None cells) || negb (existsb is_number cells).

(** ** Schemas *)

Definition has_field (f : string) (r : dict) : bool :=
  match dict_get f r with
  | Some _ => true
  | None => false
  end.

(** A cell that stands for a missing value. *)
Definition is_missing (v : value) : bool :=
  match v with
  | VNone => true
  | VFloat f => PrimFloat.is_nan f
  | _ => false
  end.

Definition list_eqb (a b : list string) : bool := bool_decide (a = b).

(** Every record has the keys of the first one, in the same order. *)
Definition same_field_set (rs : list dict) : bool :=
  match rs with
  | [] => true
  | r0 :: _ => forallb (fun r => list_eqb (keys r) (keys r0)) rs
  end.

(** Every field the chart's encoding names is a column of the chart's data
    frame and is present in every one of its rows. *)
Definition fields_bound (h : list DataFrame) (c : Chart) : bool :=
  match h !! data c with
  | None => false
  | Some df =>
      forallb (fun f => existsb (String.eqb f) (columns df)
                        && forallb (has_field f) (rows df))
              (encoded_fields c)
  end.

Definition no_missing_cell (df : DataFrame) : bool :=
  forallb (fun col => forallb (fun v => negb (is_missing v)) col.2) df.

(** ** Categories *)

Definition subset_of (a b : list value) : bool :=
  forallb (fun v => existsb (value_eqb v) b) a.

(** The ordering lists exactly the categories of the data: each is in the
    other, and the ordering repeats none. *)
Definition ordering_matches (order cats : list value) : bool :=
  subset_of order cats && subset_of cats order
  && Nat.eqb (length (distinct order)) (length order).

(** ** Effects *)

Fixpoint saves (tr : list event) : list (string * file_format * value) :=
  match tr with
  | [] => []
  | EvSave p f s :: tr' => (p, f, s) :: saves tr'
  | EvPrint _ :: tr' => saves tr'
  end.

Fixpoint printed (tr : list event) : list string :=
  match tr with
  | [] => []
  | EvPrint l :: tr' => l :: printed tr'
  | EvSave _ _ _ :: tr' => printed tr'
  end.

(** The four [save] calls of the script, in order. *)
Definition script_saves : list (string * file_format * value) := [
  ("paper/figures/quality-x-noise.png", PNG, VFloat 2.0);
  ("paper/figures/quality-x-noise.pdf", PDF, VInt 1);
  ("paper/figures/strategy-comparison.png", PNG, VFloat 2.0);
  ("paper/figures/strategy-comparison.pdf", PDF, VInt 1)
].

Definition script_paths : list string := script_saves.*1.*1.

(** ** Numbers *)

(** The rational a finite float is. *)
Definition float_to_Q (f : float) : option Q :=
  match Prim2SF f with
  | S754_zero _ => Some 0%Q
  | S754_finite s m e =>
      let q := (inject_Z (Zpos m) * Qpower 2 e)%Q in
      Some (if s then Qopp q else q)
  | S754_infinity _ | S754_nan => None
  end.

(** Rounding to the nearest integer, ties to even (Python's [round]). *)
Definition round_half_even (q : Q) : Z :=
  let lo := Qfloor q in
  match Qcompare (q - inject_Z lo) (1 # 2) with
  | Lt => lo
  | Gt => lo + 1
  | Eq => if Z.even lo then lo else lo + 1
  end.

(** By how many percent [a] exceeds [b]. *)
Definition percent_more (a b : Q) : Q := (100 * ((a - b) / b))%Q.

Definition float_percent_more (a b : float) : float :=
  (100 * ((a - b) / b))%float.

(** The first row with the largest value of field [f]. *)
Definition number_of (f : string) (r : dict) : option float :=
  match dict_get f r with
  | Some v => to_number v
  | None => None
  end.

Definition better (f : string) (best r : dict) : dict :=
  match number_of f best, number_of f r with
  | Some b, Some x => if PrimFloat.ltb b x then r else best
  | _, _ => best
  end.

Definition argmax_on (f : string) (rs : list dict) : option dict :=
  match rs with
  | [] => None
  | r :: rs' => Some (fold_left (better f) rs' r)
  end.

(** The subtitle of a figure. *)
Definition subtitle (fig : LayerChart) : option string :=
  match assoc "title" (layer_props fig) with
  | Some (AObj o) =>
      match assoc "subtitle" o with
      | Some (AVal (VStr s)) => Some s
      | _ => None
      end
  | _ => None
  end.

(** ** Reading a domain *)




(** ** Failures *)


(** Every discrete channel of the chart that is given an explicit ordering
    is given one that lists exactly the categories of its field. *)
Definition explicit_orderings_match (h : list DataFrame) (c : Chart) : bool :=
  forallb (fun e =>
             match channel_sort e.2 with
             | Some (SortArray order) =>
                 match channel_values h c e.1 with
                 | Some cats => ordering_matches order cats
                 | None => false
                 end
             | _ => true
             end) (encoding c).

Definition has_explicit_ordering (c : Chart) : bool :=
  existsb (fun e => match channel_sort e.2 with
                    | Some (SortArray _) => true
                    | _ => false
                    end) (encoding c).

(** ** The disk *)

(** The disk after the files [ps] have been written, in order, with the
    contents [bs]. *)
Definition written (disk : gmap string bytes) (ps : list string) (bs : list bytes)
  : gmap string bytes :=
  fold_left (fun fs pb => <[pb.1 := pb.2]> fs) (zip ps bs) disk.

(** The three lines the script prints. *)
Definition script_lines : list string := [
  "Saving Quality x Noise chart...";
  "Saving Strategy Comparison chart...";
  "Done! Charts saved to paper/figures/"
].

End Reading.

(* ===================================================================== *)
(** * Runtimes to run the script in *)
(* ===================================================================== *)

Module Samples.
Import Py Run Altair.

(** The script never formats a float, so any [repr] will do. *)
Definition repr_unused : float -> string := fun _ => EmptyString.

(** A backend that renders every figure and a disk that takes every file. *)
Definition export_ok
  : world -> string -> file_format -> value -> LayerChart -> exn + bytes :=
  fun _ _ fmt _ _ => inr (if is_raster fmt then [Byte.x89] else [Byte.x25]).

Definition permission_denied (fp : string) : exn :=
  Exn "PermissionError" ["[Errno 13] Permission denied"; fp].


(** A disk on which one path cannot be written. *)
Definition export_refusing (bad : string)
  : world -> string -> file_format -> value -> LayerChart -> exn + bytes :=
  fun w fp fmt sf fig =>
    if String.eqb fp bad then inl (permission_denied fp) else export_ok w fp fmt sf fig.

(** A backend whose output depends on the data it is given: one byte per
    frame in memory. *)
Definition export_frames
  : world -> string -> file_format -> value -> LayerChart -> exn + bytes :=
  fun w _ _ _ _ => inr (replicate (length (heap w)) Byte.x89).

End Samples.

(* ===================================================================== *)
(** * Properties *)
(* ===================================================================== *)

Import Py Run Pandas Altair VegaLite Script Reading Samples.

Ltac crunch := vm_compute; reflexivity.

(** Runs lines 10-136 from a fresh interpreter and names the outcome. *)
Ltac run_build := eexists _, _, _; split; [ crunch | ].

Ltac all_of := repeat (constructor; [ crunch | ]); constructor.

(** ** Reading the boolean checks *)

Lemma same_field_set_spec (rs : list dict) :
  same_field_set rs = true ->
  forall r r', r ∈ rs -> r' ∈ rs -> keys r = keys r'.
Proof.
  destruct rs as [|r0 rs]; [ intros _ r r' Hr; by apply elem_of_nil in Hr | ].
  unfold same_field_set. rewrite forallb_forall.
  intros H r r' Hr Hr'.
  apply list_elem_of_In, H, bool_decide_eq_true in Hr.
  apply list_elem_of_In, H, bool_decide_eq_true in Hr'.
  congruence.
Qed.

Lemma fields_bound_spec (h : list DataFrame) (c : Chart) :
  fields_bound h c = true ->
  exists df, h !! data c = Some df /\
    forall f, f ∈ encoded_fields c ->
      f ∈ columns df /\ forall r, r ∈ rows df -> is_Some (dict_get f r).
Proof.
  unfold fields_bound. destruct (h !! data c) as [df|]; [ | discriminate ].
  rewrite forallb_forall. intros H. exists df. split; [ done | ].
  intros f Hf. apply list_elem_of_In, H, andb_true_iff in Hf as [Hc Hr].
  split.
  - apply existsb_exists in Hc as (x & Hx & Heq).
    apply String.eqb_eq in Heq as ->. by apply list_elem_of_In.
  - rewrite forallb_forall in Hr. intros r Hin.
    apply list_elem_of_In, Hr in Hin. unfold has_field in Hin.
    destruct (dict_get f r); [ by eexists | discriminate ].
Qed.

(** ** Layering *)

Lemma layer_fold (a b : Chart) (cs : list Chart) :
  layer (fold_left layer_add cs (chart_add a b)) = a :: b :: cs.
Proof.
  change (a :: b :: cs) with ((layer (chart_add a b)) ++ cs)%list.
  generalize (chart_add a b) as l.
  induction cs as [|c cs IH]; intros l; cbn [fold_left].
  - by rewrite app_nil_r.
  - rewrite IH. cbn [layer_add layer]. by rewrite <- app_assoc.
Qed.

(** C4: the layers of a composite figure are the charts that were added,
    in the order in which they were added: [a + b + c] has the layer
    sequence [[a; b; c]] (and so on for any number of further charts),
    [properties] and the [configure] methods leave it alone, figure 1 is
    [[line chart; threshold rule; threshold label]] and figure 2 is
    [[bars; value labels; info labels]]. *)
Theorem layer_order_is_overlay_order (float_repr : float -> string)
    (disk : gmap string bytes) :
  (forall a b c : Chart, layer (layer_add (chart_add a b) c) = [a; b; c]) /\
  (forall (a b : Chart) (cs : list Chart),
      layer (fold_left layer_add cs (chart_add a b)) = a :: b :: cs) /\
  (forall (kw : kwargs) (l : LayerChart),
      layer (properties kw l) = layer l /\ layer (configure kw l) = layer l /\
      layer (configure_axis kw l) = layer l /\
      layer (configure_legend kw l) = layer l /\
      layer (configure_view kw l) = layer l) /\
  exists f1 f2 w,
    build float_repr (start disk) = (Returns (f1, f2), w) /\
    layer (fig1 f1) = [quality_noise_chart f1; threshold_line f1; threshold_label f1] /\
    layer (fig2 f2) = [bars f2; text_labels f2; info_labels f2] /\
    fst <$> mark (quality_noise_chart f1) = Some line /\
    fst <$> mark (threshold_line f1) = Some rule /\
    fst <$> mark (threshold_label f1) = Some text /\
    fst <$> mark (bars f2) = Some bar /\
    fst <$> mark (text_labels f2) = Some text /\
    fst <$> mark (info_labels f2) = Some text.
Proof.
  split; [ reflexivity | ].
  split; [ apply layer_fold | ].
  split; [ intros kw l; repeat split | ].
  run_build. repeat split.
Qed.

(** C6: within each of the two datasets every record has the same fields;
    building the frames and the figures returns normally; no cell of any
    frame is a missing value; and every field named by an encoding is a
    column of the frame the chart is bound to and is present in every row
    of it. *)
Theorem embedded_datasets_are_well_formed (float_repr : float -> string)
    (disk : gmap string bytes) :
  (forall r r', r ∈ quality_noise_records -> r' ∈ quality_noise_records ->
                keys r = keys r') /\
  (forall r r', r ∈ strategy_records -> r' ∈ strategy_records -> keys r = keys r') /\
  exists f1 f2 w,
    build float_repr (start disk) = (Returns (f1, f2), w) /\
    heap w !! quality_noise_data f1 = Some (from_records quality_noise_records) /\
    heap w !! strategy_data f2 = Some (from_records strategy_records) /\
    columns (from_records quality_noise_records)
      = ["quality"; "noise"; "probability"; "order"] /\
    columns (from_records strategy_records)
      = ["strategy"; "expected"; "papers"; "quality"] /\
    Forall (fun df => no_missing_cell df = true) (heap w) /\
    Forall (fun c => exists df, heap w !! data c = Some df /\
                forall f, f ∈ encoded_fields c ->
                  f ∈ columns df /\ forall r, r ∈ rows df -> is_Some (dict_get f r))
           (layer (fig1 f1) ++ layer (fig2 f2)).
Proof.
  split; [ apply same_field_set_spec; crunch | ].
  split; [ apply same_field_set_spec; crunch | ].
  run_build.
  do 4 (split; [ crunch | ]).
  split.
  - vm_compute. all_of.
  - repeat (constructor; [ apply fields_bound_spec; crunch | ]). constructor.
Qed.

(** C9: every value the figures plot on a channel with a declared scale
    domain lies in that domain: qualities (and the threshold at 70) in
    [45, 95], probabilities (and the threshold label at 92) in [0, 100],
    expected values (and the info labels at 0.08) in [0, 1]. *)
Theorem embedded_values_lie_in_declared_domains (float_repr : float -> string)
    (disk : gmap string bytes) :
  Forall (fun r => exists q, dict_get "quality" r = Some (VInt q) /\ 45 <= q <= 95)
         quality_noise_records /\
  exists f1 f2 w,
    build float_repr (start disk) = (Returns (f1, f2), w) /\
    (exists xs, declared_domain (fig1 f1) "x" = Some [VInt 45; VInt 95] /\
       plotted_values (heap w) (fig1 f1) "x" = Some xs /\
       (length xs = 17%nat /\ last xs = Some (VInt 70)) /\
       Forall (fun v => in_domain [VInt 45; VInt 95] v = true) xs) /\
    (exists ys, declared_domain (fig1 f1) "y" = Some [VInt 0; VInt 100] /\
       plotted_values (heap w) (fig1 f1) "y" = Some ys /\
       (length ys = 16%nat /\ last ys = Some (VInt 92)) /\
       Forall (fun v => in_domain [VInt 0; VInt 100] v = true) ys) /\
    (exists ys, declared_domain (fig2 f2) "y" = Some [VInt 0; VInt 1] /\
       plotted_values (heap w) (fig2 f2) "y" = Some ys /\
       (length ys = 12%nat /\ last ys = Some (VFloat 0.08)) /\
       Forall (fun v => in_domain [VInt 0; VInt 1] v = true) ys).
Proof.
  split.
  - unfold quality_noise_records.
    repeat (constructor; [ eexists; split; [ reflexivity | lia ] | ]).
    constructor.
  - run_build.
    split; [ | split ];
      (eexists; split; [ crunch | ]; split; [ crunch | ];
       split; [ split; crunch | ]; all_of).
Qed.

(** ** The info labels *)

Lemma info_lambda_ints (float_repr : float -> string) (r : dict) (papers quality : Z) :
  dict_get "papers" r = Some (VInt papers) ->
  dict_get "quality" r = Some (VInt quality) ->
  info_lambda float_repr r
    = Returns (VStr (pretty papers ++ " paper"
                     ++ (if 1 <? papers then "s" else EmptyString)
                     ++ ", Q=" ++ pretty quality)).
Proof.
  intros Hp Hq. unfold info_lambda, getitem. rewrite Hp, Hq. reflexivity.
Qed.

Lemma plural_differs (a b : string) (p q : bool) :
  (a ++ " paper" ++ (if p then "s" else EmptyString) ++ ", Q=" ++ b)
  = (a ++ " paper" ++ (if q then "s" else EmptyString) ++ ", Q=" ++ b) -> p = q.
Proof.
  intros H. apply (inj (String.app a)) in H.
  destruct p, q; try reflexivity; cbv [String.append] in H; discriminate.
Qed.

(** C7: the info label depends on the record alone: on a record whose
    [papers] and [quality] are the integers [p] and [q] it is
    ["<p> paper" ++ plural ++ ", Q=<q>"], where the plural [s] is there
    exactly when [p > 1]; the four strategy records give
    ["2 papers, Q=78"], ["3 papers, Q=68"], ["2 papers, Q=72"] and
    ["1 paper, Q=85"], and these are the texts the info layer shows. *)
Theorem info_label_is_a_function_of_the_record (float_repr : float -> string) :
  (forall (r : dict) (papers quality : Z),
     dict_get "papers" r = Some (VInt papers) ->
     dict_get "quality" r = Some (VInt quality) ->
     info_lambda float_repr r
       = Returns (VStr (pretty papers ++ " paper"
                        ++ (if 1 <? papers then "s" else EmptyString)
                        ++ ", Q=" ++ pretty quality)) /\
     (1 < papers <->
        info_lambda float_repr r
          = Returns (VStr (pretty papers ++ " papers, Q=" ++ pretty quality))) /\
     (papers <= 1 <->
        info_lambda float_repr r
          = Returns (VStr (pretty papers ++ " paper, Q=" ++ pretty quality)))) /\
  map (info_lambda float_repr) strategy_records
    = [Returns (VStr "2 papers, Q=78"); Returns (VStr "3 papers, Q=68");
       Returns (VStr "2 papers, Q=72"); Returns (VStr "1 paper, Q=85")] /\
  forall disk, exists f1 f2 w df cells,
    build float_repr (start disk) = (Returns (f1, f2), w) /\
    heap w !! data (info_labels f2) = Some df /\
    channel_values (heap w) (info_labels f2) "text" = Some cells /\
    cells = [VStr "2 papers, Q=78"; VStr "3 papers, Q=68";
             VStr "2 papers, Q=72"; VStr "1 paper, Q=85"] /\
    map_outcome (info_lambda float_repr) (rows df) = Returns cells.
Proof.
  split; [ | split; [ crunch | ] ].
  - intros r papers quality Hp Hq.
    pose proof (info_lambda_ints float_repr r papers quality Hp Hq) as E.
    split; [ exact E | ]. rewrite E. split; split.
    + intros H. apply Z.ltb_lt in H. rewrite H. reflexivity.
    + intros H. injection H as H.
      change (pretty papers ++ " papers, Q=" ++ pretty quality)
        with (pretty papers ++ " paper" ++ (if true then "s" else EmptyString)
              ++ ", Q=" ++ pretty quality) in H.
      apply plural_differs in H. by apply Z.ltb_lt.
    + intros H. apply Z.ltb_ge in H. rewrite H. reflexivity.
    + intros H. injection H as H.
      change (pretty papers ++ " paper, Q=" ++ pretty quality)
        with (pretty papers ++ " paper" ++ (if false then "s" else EmptyString)
              ++ ", Q=" ++ pretty quality) in H.
      apply plural_differs in H. by apply Z.ltb_ge.
  - intros disk. eexists _, _, _, _, _.
    split. { crunch. }
    split. { crunch. }
    split. { crunch. }
    split. { crunch. }
    crunch.
Qed.

(** The record of the One Excellent strategy: one paper, no plural. *)
Lemma info_label_witness :
  info_lambda (fun _ => EmptyString) (st "One Excellent" 0.56 1 85)
    = Returns (VStr "1 paper, Q=85").
Proof.
  exact (proj1 (proj1 (info_label_is_a_function_of_the_record (fun _ => EmptyString))
                  (st "One Excellent" 0.56 1 85) 1 85 eq_refl eq_refl)).
Defined.

(** ** The order of the bars *)




(** ** The subtitle of the strategy figure *)

(** C10: the strategy with the highest expected value is Two Very Good
    (0.82, quality 78); the one with the highest quality is One Excellent
    (0.56, quality 85); the former exceeds the latter by
    (0.82 - 0.56) / 0.56, which rounds to 46 percent (for the decimals, for
    the binary64 values the frame holds, and in binary64 arithmetic), and 46
    is the figure in the subtitle. *)
Theorem subtitle_percentage_matches_data (float_repr : float -> string)
    (disk : gmap string bytes) :
  exists f1 f2 w df best top,
    build float_repr (start disk) = (Returns (f1, f2), w) /\
    heap w !! strategy_data f2 = Some df /\
    (argmax_on "expected" (rows df) = Some best /\
     best = st "Two Very Good" 0.82 2 78) /\
    (argmax_on "quality" (rows df) = Some top /\
     top = st "One Excellent" 0.56 1 85) /\
    (exists a b,
       (number_of "expected" best ≫= float_to_Q) = Some a /\
       (number_of "expected" top ≫= float_to_Q) = Some b /\
       round_half_even (percent_more a b) = 46) /\
    round_half_even (percent_more (82 # 100) (56 # 100)) = 46 /\
    (exists x y,
       number_of "expected" best = Some x /\ number_of "expected" top = Some y /\
       (PrimFloat.ltb 45.5 (float_percent_more x y)
        && PrimFloat.ltb (float_percent_more x y) 46.5) = true) /\
    subtitle (fig2 f2)
      = Some ("Lower quality strategy yields " ++ pretty 46
              ++ "% more expected publications").
Proof.
  eexists _, _, _, _, _, _. split; [ crunch | ].
  split; [ crunch | ].
  split.
  { split. crunch. crunch. }
  split.
  { split. crunch. crunch. }
  split.
  { eexists _, _. split. crunch. split. crunch. crunch. }
  split. crunch.
  split.
  { eexists _, _. split. crunch. split. crunch. crunch. }
  crunch.
Qed.

(** ** Running lines 138-147 *)

Lemma bind_print {B} (l : string) (k : unit -> M B) (w : world) :
  bind (print l) k w = k tt (World (heap w) (files w) (trace w ++ [EvPrint l])).
Proof. reflexivity. Qed.

Lemma bind_save_inr {B} export (fig : LayerChart) (fp : string) (fmt : file_format)
    (sf : value) (k : unit -> M B) (w : world) (b : bytes) :
  infer_format fp = Returns fmt ->
  export w fp fmt sf fig = inr b ->
  bind (save export fig fp sf) k w
  = k tt (World (heap w) (<[fp := b]> (files w)) (trace w ++ [EvSave fp fmt sf])).
Proof.
  intros Hf He. unfold bind at 1, save, bind, lift. rewrite Hf, He. reflexivity.
Qed.

Lemma bind_save_inl {B} export (fig : LayerChart) (fp : string) (fmt : file_format)
    (sf : value) (k : unit -> M B) (w : world) (e : exn) :
  infer_format fp = Returns fmt ->
  export w fp fmt sf fig = inl e ->
  bind (save export fig fp sf) k w
  = (Raises e, World (heap w) (files w) (trace w ++ [EvSave fp fmt sf])).
Proof.
  intros Hf He. unfold bind at 1, save, bind, lift. rewrite Hf, He. reflexivity.
Qed.

(** Case analysis on the next [save] of the run. *)
Ltac next_save export :=
  match goal with
  | |- context [bind (save export ?fig ?fp ?sf) ?k ?w] =>
      let f := eval vm_compute in (infer_format fp) in
      match f with
      | Returns ?fmt =>
          let E := fresh "E" in
          destruct (export w fp fmt sf fig) as [?e|?b] eqn:E;
          [ rewrite (bind_save_inl export fig fp fmt sf k w _ eq_refl E)
          | rewrite (bind_save_inr export fig fp fmt sf k w _ eq_refl E) ];
          cbn [heap files trace]
      end
  end.

Lemma main_after_build float_repr export disk :
  exists f1 f2 h,
    build float_repr (start disk) = (Returns (f1, f2), World h disk []) /\
    main float_repr export (start disk) = save_charts export f1 f2 (World h disk []).
Proof.
  eexists _, _, _.
  assert (E : build float_repr (start disk) = _) by (vm_compute; reflexivity).
  split.
  - exact E.
  - unfold main, bind. rewrite E. reflexivity.
Qed.

Lemma save_charts_heap export f1 f2 w :
  heap (save_charts export f1 f2 w).2 = heap w.
Proof.
  unfold save_charts. rewrite bind_print. cbn [heap files trace].
  next_save export; [ reflexivity | ].
  next_save export; [ reflexivity | ].
  rewrite bind_print. cbn [heap files trace].
  next_save export; [ reflexivity | ].
  next_save export; [ reflexivity | ].
  reflexivity.
Qed.



(** The run when the call number [k] is the first the disk refuses. *)
Lemma save_charts_first_refusal export f1 f2 w0 (k : nat) p fmt sf e :
  script_saves !! k = Some (p, fmt, sf) ->
  (forall w fig, export w p fmt sf fig = inl e) ->
  (forall w q f s fig, q ∈ take k script_paths -> exists b, export w q f s fig = inr b) ->
  exists bs tr,
    save_charts export f1 f2 w0
    = (Raises e, World (heap w0) (written (files w0) (take k script_paths) bs)
                   (trace w0 ++ tr)) /\
    length bs = k /\
    saves tr = take (S k) script_saves /\
    printed tr = take (if (k <? 2)%nat then 1 else 2)%nat script_lines.
Proof.
  intros Hk Hbad Hok. unfold save_charts. rewrite bind_print. cbn [heap files trace].
  destruct k as [|k].
  { injection Hk as <- <- <-. erewrite bind_save_inl; [ | reflexivity | apply Hbad ].
    exists []. eexists. cbn [heap files trace]. rewrite <- ?app_assoc. split; [ reflexivity | ]. repeat split. }
  next_save export.
  { edestruct Hok as [b' Hb]; [ | rewrite Hb in E; discriminate ].
    vm_compute. set_solver. }
  destruct k as [|k].
  { injection Hk as <- <- <-. erewrite bind_save_inl; [ | reflexivity | apply Hbad ].
    exists [b]. eexists. cbn [heap files trace]. rewrite <- ?app_assoc. split; [ reflexivity | ]. repeat split. }
  next_save export.
  { edestruct Hok as [b' Hb]; [ | rewrite Hb in E0; discriminate ].
    vm_compute. set_solver. }
  rewrite bind_print. cbn [heap files trace].
  destruct k as [|k].
  { injection Hk as <- <- <-. erewrite bind_save_inl; [ | reflexivity | apply Hbad ].
    exists [b; b0]. eexists. cbn [heap files trace]. rewrite <- ?app_assoc. split; [ reflexivity | ]. repeat split. }
  next_save export.
  { edestruct Hok as [b' Hb]; [ | rewrite Hb in E1; discriminate ].
    vm_compute. set_solver. }
  destruct k as [|k].
  { injection Hk as <- <- <-. erewrite bind_save_inl; [ | reflexivity | apply Hbad ].
    exists [b; b0; b1]. eexists. cbn [heap files trace]. rewrite <- ?app_assoc. split; [ reflexivity | ]. repeat split. }
  discriminate Hk.
Qed.




(** Seen from the disk: if the call number [k] of the four is one the disk
    always refuses, with exception [e], and the earlier ones are always
    accepted, the run ends there raising [e] itself:
    the [save] calls made are the first [k + 1] of the script, each made
    once and the failing one last, the final line is not printed, and the
    disk holds the [k] files written before. *)
Theorem failed_save_aborts_the_run (float_repr : float -> string)
    (export : world -> string -> file_format -> value -> LayerChart -> exn + bytes)
    (disk : gmap string bytes) (k : nat) (p : string) (fmt : file_format)
    (sf : value) (e : exn) :
  script_saves !! k = Some (p, fmt, sf) ->
  (forall w fig, export w p fmt sf fig = inl e) ->
  (forall w q f s fig, q ∈ take k script_paths -> exists b, export w q f s fig = inr b) ->
  exists w bs,
    main float_repr export (start disk) = (Raises e, w) /\
    saves (trace w) = take (S k) script_saves /\
    last (saves (trace w)) = Some (p, fmt, sf) /\
    NoDup (saves (trace w)).*1.*1 /\
    printed (trace w) = take (if (k <? 2)%nat then 1 else 2)%nat script_lines /\
    ("Done! Charts saved to paper/figures/" ∉ printed (trace w)) /\
    length bs = k /\
    files w = written disk (take k script_paths) bs.
Proof.
  intros Hk Hbad Hok.
  destruct (main_after_build float_repr export disk) as (f1 & f2 & h & _ & ->).
  destruct (save_charts_first_refusal export f1 f2 (World h disk []) k p fmt sf e
              Hk Hbad Hok) as (bs & tr & -> & Hlen & Hsaves & Hprinted).
  eexists _, bs. split; [ reflexivity | ].
  cbn [heap files trace app]. rewrite Hsaves, Hprinted.
  split; [ reflexivity | ].
  destruct k as [|[|[|[|k]]]]; try discriminate Hk;
    injection Hk as <- <- <-;
    (split; [ reflexivity | ]);
    (split; [ vm_compute; repeat constructor; set_solver | ]);
    (split; [ reflexivity | ]);
    (split; [ vm_compute; set_solver | ]);
    (split; [ assumption | reflexivity ]).
Qed.

(** A disk that refuses the third file. *)
Lemma failed_save_aborts_the_run_witness :
  exists (w : world) (bs : list bytes),
    main repr_unused (export_refusing "paper/figures/strategy-comparison.png")
         (start ∅)
      = (Raises (permission_denied "paper/figures/strategy-comparison.png"), w) /\
    saves (trace w) = take 3 script_saves /\
    length bs = 2%nat.
Proof.
  destruct (failed_save_aborts_the_run repr_unused
              (export_refusing "paper/figures/strategy-comparison.png") ∅
              2 "paper/figures/strategy-comparison.png" PNG (VFloat 2.0)
              (permission_denied "paper/figures/strategy-comparison.png"))
    as (w & bs & Hrun & Hsaves & _ & _ & _ & _ & Hlen & _).
  - reflexivity.
  - intros w fig. reflexivity.
  - intros w q f s fig Hq. unfold script_paths, script_saves in Hq. cbn in Hq.
    rewrite !elem_of_cons in Hq. destruct Hq as [-> | [-> | Hq]].
    + eexists. reflexivity.
    + eexists. reflexivity.
    + by apply elem_of_nil in Hq.
  - exists w, bs. split; [ exact Hrun | ]. split; assumption.
Defined.





(** ** Categories and their ordering *)

Lemma Forall_of_forallb {A} (f : A -> bool) (l : list A) :
  forallb f l = true -> Forall (fun a => f a = true) l.
Proof.
  rewrite forallb_forall, Forall_forall. intros H a Ha.
  by apply H, list_elem_of_In.
Qed.

(** C3, as the code has it: the colour channel of the quality-by-noise chart
    is the only channel given an explicit ordering; the ordering is Low,
    Medium, High, which are exactly the distinct noise values of the data, in
    the order in which the data has them, and the legend lists these three in
    that order.  Nothing checks an ordering against the data: whatever the
    records and the ordering, building the figure returns normally. *)
Theorem colour_ordering_lists_the_noise_categories (float_repr : float -> string)
    (disk : gmap string bytes) :
  (exists f1 f2 w cats,
     build float_repr (start disk) = (Returns (f1, f2), w) /\
     channel_sort <$> channel_of (quality_noise_chart f1) "color"
       = Some (Some (SortArray noise_order)) /\
     noise_order = [VStr "Low (SD=15)"; VStr "Medium (SD=30)"; VStr "High (SD=45)"] /\
     channel_values (heap w) (quality_noise_chart f1) "color" = Some cats /\
     distinct cats = noise_order /\
     ordering_matches noise_order cats = true /\
     legend_entries (heap w) (fig1 f1) = Some noise_order /\
     List.filter has_explicit_ordering (layer (fig1 f1) ++ layer (fig2 f2))
       = [quality_noise_chart f1] /\
     Forall (fun c => explicit_orderings_match (heap w) c = true)
            (layer (fig1 f1) ++ layer (fig2 f2))) /\
  (forall (records : list dict) (order : list value) (disk' : gmap string bytes),
     exists v w, figure1 records order (start disk') = (Returns v, w)).
Proof.
  split.
  - eexists _, _, _, _.
    split. { crunch. }
    split. { crunch. }
    split. { crunch. }
    split. { crunch. }
    split. { crunch. }
    split. { crunch. }
    split. { crunch. }
    split. { crunch. }
    apply Forall_of_forallb. crunch.
  - intros records order disk'. eexists _, _. crunch.
Qed.

(** C3 as stated fails: with an ordering that misses a category of the data,
    or lists one the data does not have, building the figure raises
    nothing. *)
Lemma unmatched_ordering_raises_nothing :
  (ordering_matches [VStr "Low (SD=15)"; VStr "Medium (SD=30)"]
     (default [] (column (from_records quality_noise_records) "noise")) = false /\
   exists v w,
     figure1 quality_noise_records [VStr "Low (SD=15)"; VStr "Medium (SD=30)"] (start ∅)
       = (Returns v, w)) /\
  (ordering_matches
     [VStr "Low (SD=15)"; VStr "Medium (SD=30)"; VStr "High (SD=45)"; VStr "Extreme (SD=60)"]
     (default [] (column (from_records quality_noise_records) "noise")) = false /\
   exists v w,
     figure1 quality_noise_records
       [VStr "Low (SD=15)"; VStr "Medium (SD=30)"; VStr "High (SD=45)"; VStr "Extreme (SD=60)"]
       (start ∅)
       = (Returns v, w)).
Proof.
  split.
  - split. { crunch. } eexists _, _. crunch.
  - split. { crunch. } eexists _, _. crunch.
Qed.

(** ** Frames after the run *)

(** C8: once both figures are built, and still after the run, whatever
    the exports did, [quality_noise_data] and [strategy_data] hold the rows
    and columns of their literals; [info_data] is another object, with the
    two added columns, and it is the only frame the info layer reads. *)
Theorem datasets_are_not_mutated (float_repr : float -> string)
    (export : world -> string -> file_format -> value -> LayerChart -> exn + bytes)
    (disk : gmap string bytes) :
  exists f1 f2 w info,
    build float_repr (start disk) = (Returns (f1, f2), w) /\
    heap w !! quality_noise_data f1 = Some (from_records quality_noise_records) /\
    heap w !! strategy_data f2 = Some (from_records strategy_records) /\
    rows (from_records quality_noise_records) = quality_noise_records /\
    rows (from_records strategy_records) = strategy_records /\
    columns (from_records strategy_records)
      = ["strategy"; "expected"; "papers"; "quality"] /\
    (data (bars f2) = strategy_data f2 /\ data (text_labels f2) = strategy_data f2 /\
     data (info_labels f2) = info_data f2 /\ info_data f2 <> strategy_data f2) /\
    (heap w !! info_data f2 = Some info /\
     columns info = ["strategy"; "expected"; "papers"; "quality"; "info"; "y_pos"]) /\
    heap (main float_repr export (start disk)).2 = heap w.
Proof.
  destruct (main_after_build float_repr export disk) as (f1 & f2 & h & Hb & Hm).
  rewrite Hm, save_charts_heap. cbn [heap].
  exists f1, f2, (World h disk []). eexists.
  split. { exact Hb. }
  vm_compute in Hb. injection Hb as <- <- <-.
  split. { crunch. }
  split. { crunch. }
  split. { crunch. }
  split. { crunch. }
  split. { crunch. }
  split. { repeat split; try crunch. vm_compute. discriminate. }
  split. { split; crunch. }
  reflexivity.
Qed.

(* ===================================================================== *)
(** * Further properties of the operations the script uses *)
(* ===================================================================== *)

(** ** Columns *)







Lemma setitem_run (w : world) (r : ref) (df : DataFrame) (name : string)
    (cells : list value) :
  heap w !! r = Some df ->
  setitem r name cells w
  = if Nat.eqb (length cells) (nrows df)
    then (Returns tt,
          World (<[r := set_column name (coerce_column cells) df]> (heap w))
                (files w) (trace w))
    else if Nat.eqb (nrows df) 0
    then (Returns tt,
          World (<[r := set_column name (coerce_column cells)
                          (map (fun c => (c.1, replicate (length cells) NaN)) df)]>
                   (heap w))
                (files w) (trace w))
    else (Raises (ValueError ("Length of values (" ++ pretty (length cells)
                              ++ ") does not match length of index ("
                              ++ pretty (nrows df) ++ ")")), w).
Proof.
  intros Hr. unfold setitem, bind, load, store, raise, ref in *. rewrite Hr.
  destruct (Nat.eqb (length cells) (nrows df)); [ reflexivity | ].
  destruct (Nat.eqb (nrows df) 0); reflexivity.
Qed.

Lemma setitem_fits (w : world) (r : ref) (df : DataFrame) (name : string)
    (cells : list value) :
  heap w !! r = Some df -> length cells = nrows df ->
  setitem r name cells w
  = (Returns tt,
     World (<[r := set_column name (coerce_column cells) df]> (heap w))
           (files w) (trace w)).
Proof.
  intros Hr Hlen. rewrite (setitem_run w r df) by done.
  apply Nat.eqb_eq in Hlen. by rewrite Hlen.
Qed.



(** ** Objects and aliases *)

(** X2: lines 109-111 in general: whatever is assigned to a copy of a frame,
    and whether the assignment succeeds or raises, the original object and
    every other object that existed are as before; when the cells are one
    per row the copy holds the new column.  Assigned through the reference
    itself, the column is seen through it. *)
Theorem assignment_to_a_copy_spares_the_original (w : world) (r : ref)
    (df : DataFrame) (name : string) (cells : list value) :
  heap w !! r = Some df ->
  let out := bind (copy r) (fun r' => bind (setitem r' name cells) (fun _ => ret r')) w in
  (heap out.2 !! r = Some df /\
   (forall q, q <> length (heap w) -> heap out.2 !! q = heap w !! q) /\
   files out.2 = files w /\ trace out.2 = trace w) /\
  (length cells = nrows df ->
   out.1 = Returns (length (heap w)) /\ length (heap w) <> r /\
   heap out.2 !! length (heap w) = Some (set_column name (coerce_column cells) df)) /\
  (length cells = nrows df ->
   exists w',
     setitem r name cells w = (Returns tt, w') /\
     heap w' !! r = Some (set_column name (coerce_column cells) df) /\
     (forall q, q <> r -> heap w' !! q = heap w !! q)).
Proof.
  intros Hr. cbv zeta. pose proof (lookup_lt_Some _ _ _ Hr) as Hlt.
  assert (Hother : forall (x : DataFrame) q, q <> length (heap w) ->
            (heap w ++ [x])%list !! q = heap w !! q).
  { intros x q Hq. destruct (decide (q < length (heap w))%nat).
    - by rewrite lookup_app_l.
    - rewrite lookup_app_r by lia.
      destruct (q - length (heap w))%nat as [|n'] eqn:En; [ lia | ].
      cbn. symmetry. apply lookup_ge_None_2. lia. }
  assert (Hcopy : forall B (k : ref -> M B),
            bind (copy r) k w
            = k (length (heap w)) (World (heap w ++ [df])%list (files w) (trace w))).
  { intros B k. unfold copy, bind, load, alloc, ref in *. by rewrite Hr. }
  rewrite Hcopy. clear Hcopy. cbv beta. unfold ref in *.
  set (w1 := World (heap w ++ [df])%list (files w) (trace w)).
  assert (H1 : heap w1 !! length (heap w) = Some df).
  { unfold w1. cbn [heap]. by apply list_lookup_middle. }
  assert (Hout : bind (setitem (length (heap w)) name cells)
                       (fun _ => ret (length (heap w))) w1
                = match setitem (length (heap w)) name cells w1 with
                  | (Returns _, w') => (Returns (length (heap w)), w')
                  | (Raises e, w') => (Raises e, w')
                  end) by reflexivity.
  rewrite Hout, (setitem_run w1 _ df) by done. clear Hout.
  unfold ref in *.
  split; [ | split ].
  - destruct (Nat.eqb (length cells) (nrows df));
      [ | destruct (Nat.eqb (nrows df) 0) ]; unfold w1; cbn [heap files trace fst snd].
    + rewrite insert_app_r_alt by lia. rewrite Nat.sub_diag. cbn [insert list_insert].
      split; [ by rewrite lookup_app_l | ]. split; [ exact (Hother _) | done ].
    + rewrite insert_app_r_alt by lia. rewrite Nat.sub_diag. cbn [insert list_insert].
      split; [ by rewrite lookup_app_l | ]. split; [ exact (Hother _) | done ].
    + split; [ by rewrite lookup_app_l | ]. split; [ exact (Hother _) | done ].
  - intros Hlen. apply Nat.eqb_eq in Hlen. rewrite Hlen.
    unfold w1. cbn [heap files trace fst snd].
    split; [ reflexivity | ]. split; [ lia | ].
    rewrite insert_app_r_alt by lia. rewrite Nat.sub_diag. cbn [insert list_insert].
    rewrite lookup_app_r by lia. by rewrite Nat.sub_diag.
  - intros Hlen. eexists. split; [ by apply setitem_fits | ].
    cbn [heap]. split; [ by apply list_lookup_insert_eq | ].
    intros q Hq. by apply list_lookup_insert_ne.
Qed.

Lemma assignment_to_a_copy_witness :
  heap (bind (copy 0%nat)
          (fun r' => bind (setitem r' "y_pos" [VFloat 0.08]) (fun _ => ret r'))
          (World [[("x", [VInt 70])]] ∅ [])).2 !! 0%nat
  = Some [("x", [VInt 70])].
Proof.
  exact (proj1 (proj1 (assignment_to_a_copy_spares_the_original
                  (World [[("x", [VInt 70])]] ∅ []) 0%nat [("x", [VInt 70])]
                  "y_pos" [VFloat 0.08] eq_refl))).
Defined.

(** ** What the label function does on other rows *)

(** X3: line 110 on rows it was not written for: without a [papers] field it
    raises [KeyError('papers')] (whether or not [quality] is there); with a
    [papers] that is a string or [None] it raises a [TypeError] at the
    comparison, before [quality] is looked at; with a numeric [papers] but no
    [quality] field it raises [KeyError('quality')]. *)
Theorem info_lambda_failures (float_repr : float -> string) (r : dict) :
  (dict_get "papers" r = None ->
   info_lambda float_repr r = Raises (KeyError "papers")) /\
  (forall v, dict_get "papers" r = Some v -> to_number v = None ->
   exists msg, info_lambda float_repr r = Raises (TypeError msg)) /\
  (forall v x, dict_get "papers" r = Some v -> to_number v = Some x ->
   dict_get "quality" r = None ->
   info_lambda float_repr r = Raises (KeyError "quality")).
Proof.
  unfold info_lambda, getitem. split; [ | split ].
  - intros ->. reflexivity.
  - intros v -> Hv. cbn. destruct v; try discriminate Hv; eexists; reflexivity.
  - intros v x -> Hv ->. cbn. destruct v; try discriminate Hv; reflexivity.
Qed.

Lemma info_lambda_failures_witness :
  info_lambda repr_unused [("strategy", VStr "Two Good"); ("quality", VInt 72)]
    = Raises (KeyError "papers") /\
  (exists msg,
     info_lambda repr_unused [("papers", VStr "two"); ("quality", VInt 72)]
       = Raises (TypeError msg)) /\
  info_lambda repr_unused [("papers", VInt 2)] = Raises (KeyError "quality").
Proof.
  split; [ | split ].
  - exact (proj1 (info_lambda_failures repr_unused
                    [("strategy", VStr "Two Good"); ("quality", VInt 72)]) eq_refl).
  - exact (proj1 (proj2 (info_lambda_failures repr_unused
                    [("papers", VStr "two"); ("quality", VInt 72)]))
                 (VStr "two") eq_refl eq_refl).
  - exact (proj2 (proj2 (info_lambda_failures repr_unused [("papers", VInt 2)]))
                 (VInt 2) (Z_to_float 2) eq_refl eq_refl eq_refl).
Defined.

(** X4: a fractional number of papers takes the plural exactly when it exceeds
    one, and is printed by the runtime's [repr]. *)
Theorem info_lambda_on_floats (float_repr : float -> string) (r : dict)
    (papers : float) (quality : Z) :
  dict_get "papers" r = Some (VFloat papers) ->
  dict_get "quality" r = Some (VInt quality) ->
  info_lambda float_repr r
  = Returns (VStr (float_repr papers ++ " paper"
                   ++ (if PrimFloat.ltb 1 papers then "s" else EmptyString)
                   ++ ", Q=" ++ pretty quality)).
Proof.
  intros Hp Hq. unfold info_lambda, getitem. rewrite Hp, Hq. reflexivity.
Qed.

Lemma info_lambda_on_floats_witness :
  info_lambda (fun _ => "1.5") [("papers", VFloat 1.5); ("quality", VInt 80)]
  = Returns (VStr "1.5 papers, Q=80").
Proof.
  exact (info_lambda_on_floats (fun _ => "1.5")
           [("papers", VFloat 1.5); ("quality", VInt 80)] 1.5 80 eq_refl eq_refl).
Defined.

(** ** [apply] *)

Lemma map_outcome_Returns {A B} (f : A -> outcome B) (l : list A) (bs : list B) :
  map_outcome f l = Returns bs <-> Forall2 (fun a b => f a = Returns b) l bs.
Proof.
  revert bs. induction l as [|a l IH]; intros bs; cbn.
  - split.
    + intros [= <-]. constructor.
    + intros H. by inversion H.
  - destruct (f a) as [b|e] eqn:Ea.
    + destruct (map_outcome f l) as [bs'|e] eqn:El.
      * split.
        -- intros [= <-]. constructor; [ done | ]. by apply IH.
        -- intros H. inversion H as [|? b' ? bs'' Hb Hrest]; subst.
           rewrite Ea in Hb. injection Hb as <-.
           apply IH in Hrest. by injection Hrest as <-.
      * split; [ discriminate | ].
        intros H. inversion H as [|? b' ? bs'' Hb Hrest]; subst.
        apply IH in Hrest. discriminate.
    + split; [ discriminate | ].
      intros H. inversion H as [|? b' ? bs'' Hb Hrest]; subst. congruence.
Qed.

Lemma map_outcome_Raises {A B} (f : A -> outcome B) (l : list A) (e : exn) :
  map_outcome f l = Raises e <->
  exists pre a post bs,
    l = (pre ++ a :: post)%list /\
    Forall2 (fun a b => f a = Returns b) pre bs /\ f a = Raises e.
Proof.
  induction l as [|a l IH]; cbn.
  - split; [ discriminate | ].
    intros (pre & a & post & bs & Hl & _). by destruct pre.
  - destruct (f a) as [b|e'] eqn:Ea.
    + destruct (map_outcome f l) as [bs'|e'] eqn:El.
      * split; [ discriminate | ].
        intros (pre & a' & post & bs & Hl & Hpre & Ha').
        destruct pre as [|p pre]; injection Hl as -> ->; [ congruence | ].
        inversion Hpre; subst.
        assert (Returns bs' = Raises e) as Habs; [ | discriminate Habs ].
        apply IH. eauto 10.
      * split.
        -- intros [= ->]. destruct (proj1 IH eq_refl) as (pre & a' & post & bs & -> & Hpre & Ha').
           exists (a :: pre), a', post, (b :: bs). repeat split; [ | done ].
           by constructor.
        -- intros (pre & a' & post & bs & Hl & Hpre & Ha').
           destruct pre as [|p pre]; injection Hl as -> ->; [ congruence | ].
           inversion Hpre; subst. apply IH. eauto 10.
    + split.
      * intros [= ->]. exists [], a, l, []. repeat split; [ constructor | done ].
      * intros (pre & a' & post & bs & Hl & Hpre & Ha').
        destruct pre as [|p pre]; injection Hl as -> ->; [ congruence | ].
        inversion Hpre; subst. congruence.
Qed.


Lemma length_rows (df : DataFrame) : length (rows df) = nrows df.
Proof. unfold rows. by rewrite length_map, length_seq. Qed.

Lemma length_rows_for_apply (df : DataFrame) : length (rows_for_apply df) = nrows df.
Proof.
  unfold rows_for_apply.
  destruct (_ && _); [ rewrite length_map | ]; apply length_rows.
Qed.

Lemma all_int_no_float_column (df : DataFrame) :
  forallb (fun col => forallb is_int col.2) df = true ->
  existsb (fun col => negb (forallb is_int col.2)) df = false.
Proof.
  induction df as [|col df IH]; [ reflexivity | ].
  cbn. intros [-> H]%andb_prop. cbn. by apply IH.
Qed.

(** X5: [df.apply(f, axis=1)] (line 110) calls [f] on the rows in order: it
    returns the results, one per row, when [f] returns on every row, and
    otherwise it raises what [f] raises on the first row on which [f] fails;
    either way the frame, the disk and the output are as before.  The rows
    are the frame's cells as stored when a cell is not a number (a string,
    as in the script's data, or [None]) or when all cells are integers. *)
Theorem apply_rows_outcome (r : ref) (df : DataFrame) (f : dict -> outcome value)
    (w : world) :
  heap w !! r = Some df ->
  (apply_rows r f w).2 = w /\
  (forall cells, (apply_rows r f w).1 = Returns cells <->
                 Forall2 (fun row c => f row = Returns c) (rows_for_apply df) cells) /\
  (forall cells, (apply_rows r f w).1 = Returns cells -> length cells = nrows df) /\
  (forall e, (apply_rows r f w).1 = Raises e <->
             exists pre row post cells,
               rows_for_apply df = (pre ++ row :: post)%list /\
               Forall2 (fun row c => f row = Returns c) pre cells /\
               f row = Raises e) /\
  (forallb (fun col => forallb is_number col.2) df = false \/
   forallb (fun col => forallb is_int col.2) df = true ->
   rows_for_apply df = rows df).
Proof.
  intros Hr. unfold apply_rows, bind, load, lift, ref in *. rewrite Hr. cbn.
  split; [ reflexivity | ]. split; [ | split; [ | split ] ].
  - intros cells. apply map_outcome_Returns.
  - intros cells H. apply map_outcome_Returns, Forall2_length in H.
    by rewrite <- H, length_rows_for_apply.
  - intros e. apply map_outcome_Raises.
  - unfold rows_for_apply. intros [-> | H]; [ reflexivity | ].
    by rewrite (all_int_no_float_column df H), andb_false_r.
Qed.

Lemma apply_rows_outcome_witness :
  (apply_rows 0%nat (info_lambda repr_unused)
     (World [from_records strategy_records] ∅ [])).2
  = World [from_records strategy_records] ∅ [] /\
  rows_for_apply (from_records strategy_records) = rows (from_records strategy_records).
Proof.
  pose proof (apply_rows_outcome 0%nat (from_records strategy_records)
                (info_lambda repr_unused)
                (World [from_records strategy_records] ∅ []) eq_refl)
    as (H1 & _ & _ & _ & H2).
  split; [ exact H1 | ]. apply H2. left. vm_compute. reflexivity.
Defined.


(** ** Frames from records *)

Lemma existsb_eqb_elem (k : string) (l : list string) :
  existsb (String.eqb k) l = true <-> k ∈ l.
Proof.
  rewrite existsb_exists. split.
  - intros (x & Hx & ->%String.eqb_eq). by apply list_elem_of_In.
  - intros H. exists k. split; [ by apply list_elem_of_In | apply String.eqb_refl ].
Qed.

Lemma fold_add_key_known (ks acc : list string) :
  (forall k, k ∈ ks -> k ∈ acc) -> fold_left add_key ks acc = acc.
Proof.
  induction ks as [|k ks IH]; intros H; [ reflexivity | ].
  cbn. unfold add_key at 2.
  rewrite (proj2 (existsb_eqb_elem k acc)) by (apply H; left).
  apply IH. intros k' Hk'. apply H. by right.
Qed.

Lemma fold_add_key_fresh (ks acc : list string) :
  NoDup (acc ++ ks) -> fold_left add_key ks acc = (acc ++ ks)%list.
Proof.
  revert acc. induction ks as [|k ks IH]; intros acc H.
  - by rewrite app_nil_r.
  - cbn. unfold add_key at 2.
    destruct (existsb (String.eqb k) acc) eqn:E.
    + apply existsb_eqb_elem in E. apply NoDup_app in H as (_ & H & _).
      exfalso. apply (H k E). left.
    + rewrite IH; [ by rewrite <- app_assoc | ]. by rewrite <- app_assoc.
Qed.

Lemma union_keys_uniform (rs : list dict) (ks : list string) :
  rs <> [] -> Forall (fun r => keys r = ks) rs -> NoDup ks -> union_keys rs = ks.
Proof.
  intros Hne Hall Hnd. destruct rs as [|r rs]; [ done | ].
  inversion Hall as [|? ? Hr Hrest]; subst. unfold union_keys. cbn [fold_left].
  rewrite fold_add_key_fresh by done. cbn [app].
  clear Hne Hall. induction Hrest as [|r' rs' Hr' _ IH]; [ reflexivity | ].
  cbn [fold_left]. rewrite Hr', fold_add_key_known by done. exact IH.
Qed.

Lemma dict_rebuild (r : dict) :
  NoDup (keys r) -> map (fun c => (c, default NaN (dict_get c r))) (keys r) = r.
Proof.
  unfold keys. induction r as [|[k v] r IH]; intros Hnd; [ reflexivity | ].
  cbn. apply NoDup_cons in Hnd as [Hk Hnd]. rewrite String.eqb_refl. cbn. f_equal.
  rewrite <- (IH Hnd) at 2. apply map_ext_in. intros c Hc.
  destruct (String.eqb c k) eqn:E; [ | reflexivity ].
  apply String.eqb_eq in E as ->. exfalso. apply Hk. by apply list_elem_of_In.
Qed.

Lemma row_of_mapped_columns (ks : list string) (rs : list dict) (i : nat)
    (r : dict) (g : string -> dict -> value) :
  rs !! i = Some r ->
  row (map (fun c => (c, map (g c) rs)) ks) i = map (fun c => (c, g c r)) ks.
Proof.
  intros Hi. unfold row. induction ks as [|k ks IH]; [ reflexivity | ].
  cbn. rewrite list_lookup_fmap, Hi. cbn. by rewrite IH.
Qed.

Lemma length_coerce_column (cells : list value) :
  length (coerce_column cells) = length cells.
Proof.
  unfold coerce_column. destruct (forallb is_int cells); [ done | ].
  destruct (_ && _); [ apply length_map | done ].
Qed.

Lemma map_as_float_floats (cells : list value) :
  forallb is_float cells = true -> map as_float cells = cells.
Proof.
  induction cells as [|v cells IH]; [ reflexivity | ].
  cbn. intros [Hv H]%andb_prop. rewrite IH by done. by destruct v.
Qed.

Lemma stored_as_given_spec (cells : list value) :
  stored_as_given cells = true -> coerce_column cells = cells.
Proof.
  unfold stored_as_given, coerce_column.
  destruct (forallb is_int cells); [ reflexivity | ].
  destruct (forallb is_number_or_None cells); cbn [negb orb andb].
  - destruct (existsb is_number cells); cbn [negb orb]; [ | reflexivity ].
    destruct (forallb is_float cells) eqn:F; cbn [orb]; [ | discriminate ].
    intros _. by apply map_as_float_floats.
  - reflexivity.
Qed.

Lemma from_records_columns (rs : list dict) : columns (from_records rs) = union_keys rs.
Proof.
  unfold columns, from_records. rewrite <- list_fmap_compose. apply list_fmap_id.
Qed.

Lemma from_records_nrows (rs : list dict) :
  union_keys rs <> [] -> nrows (from_records rs) = length rs.
Proof.
  unfold from_records. destruct (union_keys rs); [ done | ].
  intros _. cbn. by rewrite length_coerce_column, length_map.
Qed.

Lemma from_records_uniform (rs : list dict) (ks : list string) :
  rs <> [] -> ks <> [] -> NoDup ks -> Forall (fun r => keys r = ks) rs ->
  Forall (fun c => stored_as_given (map (fun r => default NaN (dict_get c r)) rs) = true) ks ->
  rows (from_records rs) = rs.
Proof.
  intros Hne Hks Hnd Hall Hty.
  assert (Hu : union_keys rs = ks) by (by apply union_keys_uniform).
  assert (Hn : nrows (from_records rs) = length rs).
  { apply from_records_nrows. by rewrite Hu. }
  assert (Hfr : from_records rs
                = map (fun c => (c, map (fun r => default NaN (dict_get c r)) rs)) ks).
  { unfold from_records. rewrite Hu. apply map_ext_in. intros c Hc.
    rewrite Forall_forall in Hty.
    by rewrite stored_as_given_spec by (apply Hty; by apply list_elem_of_In). }
  unfold rows. rewrite Hn. apply list_eq. intros i.
  rewrite list_lookup_fmap. destruct (rs !! i) as [r|] eqn:Hi.
  - pose proof (lookup_lt_Some rs i r Hi) as Hlt.
    rewrite (proj2 (lookup_seq 0 (length rs) i i)) by done. cbn.
    f_equal. rewrite Hfr.
    rewrite (row_of_mapped_columns ks rs i r (fun c r => default NaN (dict_get c r))) by done.
    rewrite Forall_forall in Hall.
    assert (Hr : keys r = ks) by (apply Hall; by eapply list_elem_of_lookup_2).
    rewrite <- Hr. apply dict_rebuild. by rewrite Hr.
  - rewrite lookup_seq_ge; [ done | ]. by apply lookup_ge_None.
Qed.

(** X6: [pd.DataFrame(records)] (lines 11-27 and 77-82) on records that all
    have the same keys, none repeated: the columns are those keys in that
    order and there is one row per record; when in addition every field
    holds cells of one kind (integers only, floats only, or not numbers),
    as the script's two datasets do, the rows are the records. *)
Theorem from_records_round_trip (rs : list dict) (ks : list string) :
  ks <> [] -> NoDup ks -> Forall (fun r => keys r = ks) rs ->
  nrows (from_records rs) = length rs /\
  columns (from_records rs) = (if rs is [] then [] else ks) /\
  (Forall (fun c => stored_as_given (map (fun r => default NaN (dict_get c r)) rs) = true) ks ->
   rows (from_records rs) = rs).
Proof.
  intros Hks Hnd Hall. destruct rs as [|r0 rs'] eqn:E; [ by repeat split | ].
  rewrite <- E in *.
  assert (Hne : rs <> []) by (by rewrite E).
  assert (Hu : union_keys rs = ks) by (by apply union_keys_uniform).
  split; [ apply from_records_nrows; by rewrite Hu | ].
  split; [ by rewrite from_records_columns | ].
  intros Hty. by apply (from_records_uniform rs ks).
Qed.

Lemma from_records_round_trip_witness :
  rows (from_records strategy_records) = strategy_records /\
  rows (from_records quality_noise_records) = quality_noise_records.
Proof.
  split.
  - refine (proj2 (proj2 (from_records_round_trip strategy_records
                     ["strategy"; "expected"; "papers"; "quality"] _ _ _)) _).
    + discriminate.
    + repeat (constructor; [ set_solver | ]). constructor.
    + repeat (constructor; [ reflexivity | ]). constructor.
    + repeat (constructor; [ vm_compute; reflexivity | ]). constructor.
  - refine (proj2 (proj2 (from_records_round_trip quality_noise_records
                     ["quality"; "noise"; "probability"; "order"] _ _ _)) _).
    + discriminate.
    + repeat (constructor; [ set_solver | ]). constructor.
    + repeat (constructor; [ reflexivity | ]). constructor.
    + repeat (constructor; [ vm_compute; reflexivity | ]). constructor.
Defined.

Lemma elem_of_fold_add_key (ks acc : list string) (k : string) :
  k ∈ fold_left add_key ks acc <-> k ∈ acc \/ k ∈ ks.
Proof.
  revert acc. induction ks as [|k' ks IH]; intros acc; cbn.
  - rewrite elem_of_nil. tauto.
  - rewrite IH, elem_of_cons. unfold add_key.
    destruct (existsb (String.eqb k') acc) eqn:E.
    + apply existsb_eqb_elem in E. split; [ tauto | ].
      intros [H | [-> | H]]; tauto.
    + rewrite elem_of_app, list_elem_of_singleton. tauto.
Qed.

Lemma elem_of_union_keys (rs : list dict) (k : string) :
  k ∈ union_keys rs <-> exists r, r ∈ rs /\ k ∈ keys r.
Proof.
  unfold union_keys.
  assert (G : forall acc,
             k ∈ fold_left (fun acc r => fold_left add_key (keys r) acc) rs acc
             <-> k ∈ acc \/ exists r, r ∈ rs /\ k ∈ keys r).
  { induction rs as [|r rs IH]; intros acc; cbn.
    - split; [ tauto | ]. intros [H | (r & Hr & _)]; [ done | ].
      by apply elem_of_nil in Hr.
    - rewrite IH, elem_of_fold_add_key. split.
      + intros [[H | H] | (r' & Hr' & Hk)]; [ tauto | | ].
        * right. exists r. split; [ left | done ].
        * right. exists r'. split; [ by right | done ].
      + intros [H | (r' & Hr' & Hk)]; [ tauto | ].
        apply elem_of_cons in Hr' as [-> | Hr']; [ tauto | ].
        right. eauto. }
  rewrite G, elem_of_nil. tauto.
Qed.

Lemma column_of_mapped (ks : list string) (g : string -> list value) (c : string) :
  c ∈ ks -> column (map (fun c => (c, g c)) ks) c = Some (g c).
Proof.
  induction ks as [|k ks IH]; intros Hc; [ by apply elem_of_nil in Hc | ].
  cbn. destruct (String.eqb c k) eqn:E.
  - by apply String.eqb_eq in E as ->.
  - apply IH. apply elem_of_cons in Hc as [-> | Hc]; [ | done ].
    by rewrite String.eqb_refl in E.
Qed.

Lemma coerce_column_lookup (cells : list value) (i : nat) (v : value) :
  cells !! i = Some v ->
  coerce_column cells !! i = Some v \/ coerce_column cells !! i = Some (as_float v).
Proof.
  intros Hi. unfold coerce_column. destruct (forallb is_int cells); [ by left | ].
  destruct (_ && _); [ right | by left ].
  change (map as_float cells) with (as_float <$> cells).
  by rewrite list_lookup_fmap, Hi.
Qed.

Lemma coerce_column_floats (cells : list value) (i : nat) (v : value) :
  cells !! i = Some v ->
  forallb is_number_or_None cells = true ->
  existsb is_float cells = true ->
  coerce_column cells !! i = Some (as_float v).
Proof.
  intros Hi Hnum Hfl. unfold coerce_column.
  assert (forallb is_int cells = false) as ->.
  { apply not_true_is_false. intros Hint.
    apply existsb_exists in Hfl as (x & Hx & Hxf).
    rewrite forallb_forall in Hint. specialize (Hint x Hx). by destruct x. }
  assert (existsb is_number cells = true) as ->.
  { apply existsb_exists in Hfl as (x & Hx & Hxf).
    apply existsb_exists. exists x. split; [ done | ]. by destruct x. }
  rewrite Hnum. cbn [andb].
  change (map as_float cells) with (as_float <$> cells).
  by rewrite list_lookup_fmap, Hi.
Qed.

(** X7: [pd.DataFrame(records)] never raises on records whose keys differ: a
    label is a column as soon as one record has it; the column holds, as a
    column of their common type, the records' cells, with [NaN] for a record
    that lacks the key; and when the other cells are numbers, the missing
    cell makes it a float column: an integer [n] is read back as the float
    [n]. *)
Theorem from_records_fills_missing (rs : list dict) (c : string) :
  (c ∈ columns (from_records rs) <-> exists r, r ∈ rs /\ c ∈ keys r) /\
  ((exists r, r ∈ rs /\ c ∈ keys r) ->
   column (from_records rs) c
   = Some (coerce_column (map (fun r => default NaN (dict_get c r)) rs)) /\
   (forall i r, rs !! i = Some r -> dict_get c r = None ->
      (column (from_records rs) c ≫= (.!! i)) = Some NaN) /\
   ((exists r, r ∈ rs /\ dict_get c r = None) ->
    (forall r v, r ∈ rs -> dict_get c r = Some v -> is_number_or_None v = true) ->
    forall i r v, rs !! i = Some r -> dict_get c r = Some v ->
      (column (from_records rs) c ≫= (.!! i)) = Some (as_float v))).
Proof.
  split; [ by rewrite from_records_columns, elem_of_union_keys | ].
  intros Hc. apply elem_of_union_keys in Hc.
  set (cells := map (fun r => default NaN (dict_get c r)) rs).
  assert (E : column (from_records rs) c = Some (coerce_column cells)).
  { unfold from_records.
    by rewrite (column_of_mapped _
                  (fun c => coerce_column (map (fun r => default NaN (dict_get c r)) rs))). }
  assert (L : forall i r, rs !! i = Some r -> cells !! i = Some (default NaN (dict_get c r))).
  { intros i r Hi. unfold cells. change (map ?f rs) with (f <$> rs).
    by rewrite list_lookup_fmap, Hi. }
  split; [ exact E | ]. split.
  - intros i r Hi Hnone. rewrite E. cbn.
    destruct (coerce_column_lookup cells i NaN) as [H | H].
    + rewrite (L i r Hi). by rewrite Hnone.
    + exact H.
    + exact H.
  - intros (r0 & Hr0 & Hnone) Hnum i r v Hi Hv. rewrite E. cbn.
    rewrite (coerce_column_floats cells i v).
    + reflexivity.
    + rewrite (L i r Hi). by rewrite Hv.
    + apply forallb_forall. intros x Hx. unfold cells in Hx.
      apply in_map_iff in Hx as (r' & <- & Hr').
      destruct (dict_get c r') as [v'|] eqn:Ev'; [ | reflexivity ].
      cbn. apply (Hnum r' v'); [ by apply list_elem_of_In | done ].
    + apply existsb_exists. exists NaN. split; [ | reflexivity ].
      unfold cells. apply in_map_iff. exists r0. rewrite Hnone.
      split; [ reflexivity | by apply list_elem_of_In ].
Qed.

Lemma from_records_fills_missing_witness :
  column (from_records [[("a", VInt 1); ("b", VInt 2)]; [("a", VInt 3)]]) "b"
  = Some [VFloat 2.0; NaN].
Proof.
  refine (proj1 (proj2 (from_records_fills_missing
                   [[("a", VInt 1); ("b", VInt 2)]; [("a", VInt 3)]] "b") _)).
  exists [("a", VInt 1); ("b", VInt 2)]. split; [ left | ]. cbn. set_solver.
Defined.

(** ** One statement at a time *)

Lemma bind_ret {A B} (a : A) (k : A -> M B) (w : world) : bind (ret a) k w = k a w.
Proof. reflexivity. Qed.

Lemma bind_assoc {A B C} (m : M A) (k1 : A -> M B) (k2 : B -> M C) (w : world) :
  bind (bind m k1) k2 w = bind m (fun a => bind (k1 a) k2) w.
Proof. unfold bind. by destruct (m w) as [[a|e] w']. Qed.

Lemma bind_DataFrame_of_records {B} (rs : list dict) (k : ref -> M B) (w : world) :
  bind (DataFrame_of_records rs) k w
  = k (length (heap w)) (World (heap w ++ [from_records rs])%list (files w) (trace w)).
Proof. reflexivity. Qed.

Lemma bind_DataFrame_of_columns {B} (cols : list (string * list value))
    (df : DataFrame) (k : ref -> M B) (w : world) :
  from_columns cols = Returns df ->
  bind (DataFrame_of_columns cols) k w
  = k (length (heap w)) (World (heap w ++ [df])%list (files w) (trace w)).
Proof.
  intros H. unfold DataFrame_of_columns, bind, lift. by rewrite H.
Qed.

Lemma bind_copy {B} (r : ref) (df : DataFrame) (k : ref -> M B) (w : world) :
  heap w !! r = Some df ->
  bind (copy r) k w
  = k (length (heap w)) (World (heap w ++ [df])%list (files w) (trace w)).
Proof.
  intros H. unfold copy, bind, load, alloc, ref in *. by rewrite H.
Qed.

Lemma bind_apply_rows {B} (r : ref) (df : DataFrame) (f : dict -> outcome value)
    (cells : list value) (k : list value -> M B) (w : world) :
  heap w !! r = Some df -> map_outcome f (rows_for_apply df) = Returns cells ->
  bind (apply_rows r f) k w = k cells w.
Proof.
  intros H Hf. unfold apply_rows, bind, load, lift, ref in *. by rewrite H, Hf.
Qed.

Lemma bind_setitem {B} (r : ref) (df : DataFrame) (name : string)
    (cells : list value) (k : unit -> M B) (w : world) :
  heap w !! r = Some df -> length cells = nrows df ->
  bind (setitem r name cells) k w
  = k tt (World (<[r := set_column name (coerce_column cells) df]> (heap w))
                (files w) (trace w)).
Proof.
  intros H Hlen. unfold bind at 1. by rewrite (setitem_fits w r df).
Qed.

Lemma bind_setitem_scalar {B} (r : ref) (df : DataFrame) (name : string)
    (v : value) (k : unit -> M B) (w : world) :
  heap w !! r = Some df ->
  bind (setitem_scalar r name v) k w
  = k tt (World (<[r := set_column name (replicate (nrows df) v) df]> (heap w))
                (files w) (trace w)).
Proof.
  intros H. unfold setitem_scalar, bind, load, store, ref in *. by rewrite H.
Qed.

Lemma lookup_last_allocated {A} (l : list A) (x : A) : (l ++ [x])%list !! length l = Some x.
Proof. by apply list_lookup_middle. Qed.

Lemma insert_last_allocated {A} (l : list A) (x y : A) :
  <[length l := y]> (l ++ [x])%list = (l ++ [y])%list.
Proof. rewrite insert_app_r_alt by done. by rewrite Nat.sub_diag. Qed.

(** X8: lines 10-136 from any state of the interpreter: they return normally,
    allocate five frames after the objects that exist (the two datasets, the
    two one-row threshold frames and the copy with its two added columns),
    change no existing object, write no file and print nothing. *)
Theorem build_only_allocates (float_repr : float -> string) (w0 : world) :
  exists f1 f2 info,
    build float_repr w0
    = (Returns (f1, f2),
       World (heap w0 ++ [from_records quality_noise_records;
                          [("x", [VInt 70])];
                          [("x", [VInt 70]); ("y", [VInt 92]); ("text", [VStr "Threshold"])];
                          from_records strategy_records;
                          info])%list
             (files w0) (trace w0)) /\
    info = set_column "y_pos" (replicate 4 (VFloat 0.08))
             (set_column "info"
                [VStr "2 papers, Q=78"; VStr "3 papers, Q=68";
                 VStr "2 papers, Q=72"; VStr "1 paper, Q=85"]
                (from_records strategy_records)) /\
    quality_noise_data f1 = length (heap w0) /\
    strategy_data f2 = (length (heap w0) + 3)%nat /\
    info_data f2 = (length (heap w0) + 4)%nat.
Proof.
  destruct w0 as [h fs tr]. unfold build, figure1, figure2. cbv beta.
  rewrite !bind_assoc, bind_DataFrame_of_records. cbv beta zeta. cbn [heap files trace].
  rewrite !bind_assoc. erewrite bind_DataFrame_of_columns by reflexivity.
  cbv beta zeta. cbn [heap files trace].
  rewrite !bind_assoc. erewrite bind_DataFrame_of_columns by reflexivity.
  cbv beta zeta. cbn [heap files trace].
  rewrite bind_ret. cbv beta zeta.
  rewrite !bind_assoc, bind_DataFrame_of_records. cbv beta zeta. cbn [heap files trace].
  rewrite !bind_assoc.
  erewrite bind_copy by (cbn [heap]; apply lookup_last_allocated).
  cbv beta zeta. cbn [heap files trace].
  rewrite !bind_assoc.
  erewrite bind_apply_rows;
    [ | cbn [heap]; apply lookup_last_allocated | crunch ].
  cbv beta zeta.
  rewrite !bind_assoc.
  erewrite bind_setitem;
    [ | cbn [heap]; apply lookup_last_allocated | crunch ].
  cbv beta zeta. cbn [heap files trace]. rewrite insert_last_allocated.
  rewrite !bind_assoc.
  erewrite bind_setitem_scalar by (cbn [heap]; apply lookup_last_allocated).
  cbv beta zeta. cbn [heap files trace]. rewrite insert_last_allocated.
  rewrite !bind_ret. cbv beta. unfold ret.
  eexists _, _, _. split.
  { rewrite <- !app_assoc. cbn [app]. reflexivity. }
  cbn [quality_noise_data strategy_data info_data].
  split. { crunch. }
  rewrite !length_app. cbn [length]. repeat split; lia.
Qed.


(** ** What the output tells *)



(** ** Running the script again *)

Lemma main_after_build_uniform (float_repr : float -> string) :
  exists f1 f2 h, forall export disk,
    main float_repr export (start disk) = save_charts export f1 f2 (World h disk []).
Proof.
  eexists _, _, _. intros export disk.
  assert (E : build float_repr (start disk) = _) by (vm_compute; reflexivity).
  unfold main, bind. rewrite E. reflexivity.
Qed.

(** What is on the disk after some files have been written is what was
    written, and under every other name what was there. *)
Lemma written_shape (ps : list string) (bs : list bytes) :
  exists f : string -> option bytes, forall disk p,
    written disk ps bs !! p = match f p with Some b => Some b | None => disk !! p end.
Proof.
  unfold written. generalize (zip ps bs). intros l.
  induction l as [|[k v] l [f Hf]].
  - exists (fun _ => None). reflexivity.
  - exists (fun p => match f p with
                     | Some b => Some b
                     | None => if decide (k = p) then Some v else None
                     end).
    intros disk p. cbn [fold_left fst snd]. rewrite Hf.
    destruct (f p); [ reflexivity | ].
    destruct (decide (k = p)) as [->|Hne].
    + by rewrite lookup_insert_eq.
    + by rewrite lookup_insert_ne.
Qed.

Lemma written_again (disk : gmap string bytes) (ps : list string) (bs : list bytes) :
  written (written disk ps bs) ps bs = written disk ps bs.
Proof.
  destruct (written_shape ps bs) as [f Hf]. apply map_eq. intros p.
  rewrite !Hf. by destruct (f p).
Qed.

(** The same [save] on two disks. *)
Ltac next_save_on_both export Hind :=
  match goal with
  | |- context [bind (save export ?fig ?fp ?sf) ?k (World ?h ?fs ?tr)] =>
      match goal with
      | |- context [bind (save export fig fp sf) ?k' (World h ?fs' tr)] =>
          tryif constr_eq fs fs' then fail else
          let f := eval vm_compute in (infer_format fp) in
          match f with
          | Returns ?fmt =>
              let E := fresh "E" in
              let E' := fresh "E'" in
              pose proof (Hind (World h fs' tr) (World h fs tr) fp fmt sf fig
                            eq_refl eq_refl) as E';
              destruct (export (World h fs tr) fp fmt sf fig) as [?e|?b] eqn:E;
              [ rewrite (bind_save_inl export fig fp fmt sf k _ _ eq_refl E),
                        (bind_save_inl export fig fp fmt sf k' _ _ eq_refl E')
              | rewrite (bind_save_inr export fig fp fmt sf k _ _ eq_refl E),
                        (bind_save_inr export fig fp fmt sf k' _ _ eq_refl E') ];
              cbn [heap files trace]
          end
      end
  end.

Lemma save_charts_on_two_disks export f1 f2 h (fs fs' : gmap string bytes) tr :
  (forall w w' p f s fig, heap w = heap w' -> trace w = trace w' ->
     export w p f s fig = export w' p f s fig) ->
  exists o tr' ps bs,
    save_charts export f1 f2 (World h fs tr) = (o, World h (written fs ps bs) tr') /\
    save_charts export f1 f2 (World h fs' tr) = (o, World h (written fs' ps bs) tr').
Proof.
  intros Hind. unfold save_charts. rewrite !bind_print. cbn [heap files trace].
  next_save_on_both export Hind.
  { by eexists _, _, [], []. }
  next_save_on_both export Hind.
  { by eexists _, _, [_], [_]. }
  rewrite !bind_print. cbn [heap files trace].
  next_save_on_both export Hind.
  { by eexists _, _, [_; _], [_; _]. }
  next_save_on_both export Hind.
  { by eexists _, _, [_; _; _], [_; _; _]. }
  by eexists _, _, [_; _; _; _], [_; _; _; _].
Qed.

(** X10: when what an export gives (the bytes, or the exception) does not
    depend on what the disk holds, running the script again on the disk the
    first run left reproduces the first run: the same outcome, the same
    calls and output, and the same disk.  In particular a successful run
    leaves a disk on which a second run succeeds and changes nothing. *)
Theorem rerun_reproduces_the_run (float_repr : float -> string)
    (export : world -> string -> file_format -> value -> LayerChart -> exn + bytes)
    (disk : gmap string bytes) :
  (forall w w' p f s fig, heap w = heap w' -> trace w = trace w' ->
     export w p f s fig = export w' p f s fig) ->
  main float_repr export (start (files (main float_repr export (start disk)).2))
  = main float_repr export (start disk).
Proof.
  intros Hind.
  destruct (main_after_build_uniform float_repr) as (f1 & f2 & h & Hmain).
  rewrite !Hmain.
  destruct (save_charts_on_two_disks export f1 f2 h disk
              (files (save_charts export f1 f2 (World h disk [])).2) [] Hind)
    as (o & tr' & ps & bs & H1 & H2).
  rewrite H2, H1. cbn [files snd]. by rewrite written_again.
Qed.

Lemma rerun_reproduces_the_run_witness :
  main repr_unused export_frames
    (start (files (main repr_unused export_frames (start ∅)).2))
  = main repr_unused export_frames (start ∅).
Proof.
  apply (rerun_reproduces_the_run repr_unused export_frames ∅).
  intros w w' p f s fig Hheap _. unfold export_frames. by rewrite Hheap.
Defined.


(** ** Keyword arguments and configuration *)

Lemma assoc_kw_set (k k' : string) (a : arg) (kw : kwargs) :
  assoc k' (kw_set k a kw) = if String.eqb k' k then Some a else assoc k' kw.
Proof.
  induction kw as [|[k0 a0] kw IH]; cbn.
  - by destruct (String.eqb k' k).
  - destruct (String.eqb k k0) eqn:E; cbn.
    + apply String.eqb_eq in E as <-. by destruct (String.eqb k' k).
    + destruct (String.eqb k' k0) eqn:E'; [ | exact IH ].
      apply String.eqb_eq in E' as ->.
      by rewrite (String.eqb_sym k0 k), E.
Qed.

Lemma assoc_None {A} (k : string) (l : list (string * A)) :
  k ∉ l.*1 -> assoc k l = None.
Proof.
  induction l as [|[k0 a0] l IH]; [ done | ].
  cbn. rewrite not_elem_of_cons. intros [Hne Hk].
  apply String.eqb_neq in Hne. rewrite Hne. by apply IH.
Qed.

Lemma assoc_kw_update (k : string) (kw new : kwargs) :
  NoDup new.*1 ->
  assoc k (kw_update kw new)
  = match assoc k new with Some a => Some a | None => assoc k kw end.
Proof.
  unfold kw_update. revert kw.
  induction new as [|[k1 a1] new IH]; intros kw Hnd; [ reflexivity | ].
  cbn in *. apply NoDup_cons in Hnd as [Hk1 Hnd].
  rewrite IH by done. rewrite assoc_kw_set.
  destruct (String.eqb k k1) eqn:E; [ | reflexivity ].
  apply String.eqb_eq in E as ->. by rewrite assoc_None.
Qed.

(** X11: lines 66-74 and 129-136: [configure] installs a configuration made
    of its keywords alone, so whatever was configured before it is gone;
    [configure_axis], [configure_legend] and [configure_view] set their own
    entry of the configuration there is and leave every other entry; none of
    them touches the layers or the figure's properties.  The script calls
    [configure] first, so its figures keep all three of their entries. *)
Theorem configure_replaces_and_its_variants_add (l : LayerChart) (kw : kwargs)
    (k : string) :
  (NoDup kw.*1 -> assoc k (config (configure kw l)) = assoc k kw) /\
  (assoc "axis" (config (configure_axis kw l)) = Some (AObj kw) /\
   (k <> "axis" -> assoc k (config (configure_axis kw l)) = assoc k (config l))) /\
  (assoc "legend" (config (configure_legend kw l)) = Some (AObj kw) /\
   (k <> "legend" -> assoc k (config (configure_legend kw l)) = assoc k (config l))) /\
  (assoc "view" (config (configure_view kw l)) = Some (AObj kw) /\
   (k <> "view" -> assoc k (config (configure_view kw l)) = assoc k (config l))) /\
  (layer_props (configure kw l) = layer_props l /\
   layer_props (configure_axis kw l) = layer_props l /\
   layer_props (configure_legend kw l) = layer_props l /\
   layer_props (configure_view kw l) = layer_props l) /\
  (layer (configure kw l) = layer l /\
   layer (configure_axis kw l) = layer l /\
   layer (configure_legend kw l) = layer l /\
   layer (configure_view kw l) = layer l) /\
  (forall float_repr, exists f1 f2 w,
     build float_repr (start ∅) = (Returns (f1, f2), w) /\
     (config (fig1 f1)).*1 = ["font"; "axis"; "legend"] /\
     (config (fig2 f2)).*1 = ["font"; "axis"; "view"]).
Proof.
  split.
  { intros Hnd. unfold configure. cbn [config]. rewrite assoc_kw_update by done.
    by destruct (assoc k kw). }
  unfold configure_axis, configure_legend, configure_view, configure, with_config.
  cbn [config layer_props layer]. unfold kw_update. cbn [fold_left fst snd].
  rewrite !assoc_kw_set, !String.eqb_refl.
  split; [ split; [ done | intros Hne; apply String.eqb_neq in Hne; by rewrite Hne ] | ].
  split; [ split; [ done | intros Hne; apply String.eqb_neq in Hne; by rewrite Hne ] | ].
  split; [ split; [ done | intros Hne; apply String.eqb_neq in Hne; by rewrite Hne ] | ].
  split; [ done | ]. split; [ done | ].
  intros float_repr. run_build. split; crunch.
Qed.

Lemma configure_replaces_witness :
  assoc "axis"
    (config (configure [("font", str "Helvetica")]
               (configure_axis [("labelFontSize", int 11)]
                  (chart_add (alt_Chart 0%nat) (alt_Chart 1%nat)))))
  = None.
Proof.
  refine (proj1 (configure_replaces_and_its_variants_add
                   (configure_axis [("labelFontSize", int 11)]
                      (chart_add (alt_Chart 0%nat) (alt_Chart 1%nat)))
                   [("font", str "Helvetica")] "axis") _).
  repeat constructor. set_solver.
Defined.

(** ** Sorting *)

Lemma insert_on_perm {A K} (before : K -> K -> bool) (key : A -> K) (x : A) (l : list A) :
  insert_on before key x l ≡ₚ x :: l.
Proof.
  induction l as [|y l IH]; cbn; [ done | ].
  destruct (before (key y) (key x)); [ | done ].
  rewrite IH. apply Permutation_swap.
Qed.

Lemma sort_on_perm {A K} (before : K -> K -> bool) (key : A -> K) (l : list A) :
  sort_on before key l ≡ₚ l.
Proof.
  unfold sort_on. induction l as [|x l IH]; cbn; [ done | ].
  by rewrite insert_on_perm, IH.
Qed.

Lemma insert_on_sorted {A} (key : A -> nat) (x : A) (l : list A) :
  StronglySorted (fun a b => (key a <= key b)%nat) l ->
  StronglySorted (fun a b => (key a <= key b)%nat) (insert_on Nat.ltb key x l).
Proof.
  induction 1 as [|y l Hl IH Hy]; cbn [insert_on].
  - repeat constructor.
  - destruct (Nat.ltb_spec (key y) (key x)) as [Hlt | Hge].
    + constructor; [ exact IH | ].
      rewrite Forall_forall. intros z Hz.
      rewrite insert_on_perm in Hz.
      apply elem_of_cons in Hz as [-> | Hz]; [ lia | ].
      rewrite Forall_forall in Hy. by apply Hy.
    + constructor; [ by constructor | ].
      constructor; [ done | ].
      eapply Forall_impl; [ exact Hy | ]. cbn. intros; lia.
Qed.

Lemma sort_on_sorted {A} (key : A -> nat) (l : list A) :
  StronglySorted (fun a b => (key a <= key b)%nat) (sort_on Nat.ltb key l).
Proof.
  unfold sort_on. induction l as [|x l IH]; cbn; [ constructor | ].
  by apply insert_on_sorted.
Qed.
